(** * Curriculum lesson manager

    A shallow embedding of
    [ml-agents/mlagents/trainers/environment_parameter_manager.py]:
    the completion-criteria evaluator [_need_increment], the seeding of
    samplers [_set_sampler_seeds], the constructor, the accessor
    [get_minimum_reward_buffer_size] and the per-step routine
    [update_lessons].

    Python values are modelled as follows: [int] is [Z], [float] is the
    binary64 type [float] of the kernel, a [dict] iterated in insertion
    order is an association list, a [dict] used only for lookups is a
    [gmap], an object mutated in place lives in a heap indexed by its
    identity, and an exception is an outcome of a state-passing
    computation that keeps the writes made before it was raised. *)

From Stdlib Require Import ZArith List Floats.
From stdpp Require Import gmap strings list functions.

#[local] Set Warnings "-inexact-float".
#[local] Open Scope Z_scope.

(** ** The Python operations the module relies on *)

Module Py.

Inductive exn : Type :=
| KeyError (key : string)
| IndexError
| TypeError
| ZeroDivisionError
| OverflowError.

Inductive outcome (A : Type) : Type :=
| Return (a : A)
| Raise (e : exn).
Arguments Return {A} a.
Arguments Raise {A} e.

Definition is_raise {A} (o : outcome A) : bool :=
  match o with Return _ => false | Raise _ => true end.

(** [l[i]]: a negative index counts from the end of the list. *)
Definition getitem {A} (l : list A) (i : Z) : outcome A :=
  let n := Z.of_nat (length l) in
  let j := if i <? 0 then i + n else i in
  if (0 <=? j) && (j <? n) then
    match l !! Z.to_nat j with
    | Some x => Return x
    | None => Raise IndexError
    end
  else Raise IndexError.

(** [d[k]] on a dictionary with string keys. *)
Definition dict_getitem {A} (d : gmap string A) (k : string) : outcome A :=
  match d !! k with
  | Some v => Return v
  | None => Raise (KeyError k)
  end.

(** Nearest binary64 value of an integer, ties to even. *)
Definition round_int (z : Z) : float :=
  SF2Prim (binary_normalize prec emax z 0 false).

(** [float(z)] for an [int]: an integer that rounds beyond the largest
    finite binary64 value raises [OverflowError]. *)
Definition float_of_int (z : Z) : outcome float :=
  let f := round_int z in
  if is_infinity f then Raise OverflowError else Return f.

(** [a / b] on floats. *)
Definition truediv (a b : float) : outcome float :=
  if (b =? 0)%float then Raise ZeroDivisionError else Return (a / b)%float.

(** Computations over a state [S] that may raise. The state reached when
    an exception is raised is kept. *)
Section Exec.
Context {S : Type}.

Definition exec (A : Type) : Type := S -> outcome A * S.

Definition ret {A} (a : A) : exec A := fun s => (Return a, s).

Definition lift {A} (o : outcome A) : exec A := fun s => (o, s).

Definition bind {A B} (m : exec A) (k : A -> exec B) : exec B :=
  fun s =>
    match m s with
    | (Return a, s') => k a s'
    | (Raise e, s') => (Raise e, s')
    end.

Definition gets {A} (f : S -> A) : exec A := fun s => (Return (f s), s).

Definition modify (f : S -> S) : exec unit := fun s => (Return tt, f s).
End Exec.
Arguments exec S A : clear implicits.

End Py.

Import Py.

Declare Scope exec_scope.
Delimit Scope exec_scope with exec.
Notation "x <- m ;; k" := (bind m (fun x => k))
  (at level 100, m at next level, right associativity) : exec_scope.
Notation "m ;; k" := (bind m (fun _ => k))
  (at level 100, right associativity) : exec_scope.

(** ** Settings *)

(** Identity of a sampler object. *)
Definition loc : Type := nat.

(** Modelled from the spec: [ParameterRandomizationSettings] of the
    settings module, a randomization-distribution descriptor carrying its
    own seed field. The manager reads and writes nothing but the seed. *)
Record ParameterRandomizationSettings : Type := { seed : Z }.

(** Modelled from the spec: [CompletionCriteriaSettings.MeasureType], the
    measure kind of a completion criteria. *)
Inductive MeasureType : Type := PROGRESS | REWARD.

#[global] Instance MeasureType_eq_dec : EqDecision MeasureType.
Proof. solve_decision. Defined.

(** Modelled from the spec: [CompletionCriteriaSettings], with the target
    behavior name, the measure kind, the threshold, the minimum length of
    the reward buffer, the smoothing flag and the reset flag. *)
Record CompletionCriteriaSettings : Type := {
  behavior : string;
  measure : MeasureType;
  min_lesson_length : Z;
  signal_smoothing : bool;
  threshold : float;
  require_reset : bool
}.

(** Modelled from the spec: a lesson has a name, a sampler and an optional
    completion criteria. The sampler is an object that the manager mutates:
    the lesson holds its identity. *)
Record Lesson : Type := {
  sampler : loc;
  completion_criteria : option CompletionCriteriaSettings;
  name : string
}.

(** Modelled from the spec: [EnvironmentParameterSettings], the ordered
    sequence of lessons of one parameter. *)
Record EnvironmentParameterSettings : Type := {
  lessons : list Lesson
}.

(** The sampler objects, by identity. *)
Abbreviation heap := (loc -> ParameterRandomizationSettings).

(** ** The persisted status *)

(** Modelled from the spec: [GlobalTrainingStatus] restricted to the
    [LESSON_NUM] entries, a store with [get(parameterName) -> integer|absent]
    and [set(parameterName, integer)], keyed by parameter. [set_calls] lists
    the calls of the set operation, the most recent first. *)
Record GlobalTrainingStatus : Type := {
  saved_state : gmap string Z;
  set_calls : list (string * Z)
}.

Definition get_parameter_state (g : GlobalTrainingStatus) (key : string)
  : option Z :=
  saved_state g !! key.

Definition set_parameter_state (g : GlobalTrainingStatus) (key : string)
    (value : Z) : GlobalTrainingStatus :=
  {| saved_state := <[key := value]> (saved_state g);
     set_calls := (key, value) :: set_calls g |}.

(** ** The manager *)

Record EnvironmentParameterManager : Type := {
  _dict_settings : list (string * EnvironmentParameterSettings);
  _smoothing_values : gmap string float
}.

(** What [update_lessons] reads and writes: the manager and the status. *)
Record world : Type := {
  self : EnvironmentParameterManager;
  status : GlobalTrainingStatus
}.

Definition set_smoothing (key : string) (v : float) (w : world) : world :=
  {| self := {| _dict_settings := _dict_settings (self w);
                _smoothing_values := <[key := v]> (_smoothing_values (self w)) |};
     status := status w |}.

Definition set_lesson_num (key : string) (v : Z) (w : world) : world :=
  {| self := self w; status := set_parameter_state (status w) key v |}.

(** The logger is outside the manager: a message is built and dropped. *)
Definition logger_info (message : string) : exec world unit := ret tt.

(** [_set_sampler_seeds]: the body of the inner loop, on the running offset
    and the heap. *)
Definition seed_lesson (run_seed : Z) (acc : Z * heap) (lesson : Lesson)
  : Z * heap :=
  let '(offset, h) := acc in
  if seed (h (sampler lesson)) =? -1 then
    (offset + 1, <[sampler lesson := {| seed := run_seed + offset |}]> h)
  else (offset, h).

Definition _set_sampler_seeds (m : EnvironmentParameterManager) (run_seed : Z)
    (h : heap) : heap :=
  snd (fold_left
         (fun acc settings => fold_left (seed_lesson run_seed) (lessons settings) acc)
         (_dict_settings m).*2 (0, h)).

(** The constructor, from the status and the sampler objects it finds. *)
Definition init_lesson (restore : bool) (g : GlobalTrainingStatus)
    (parameter_name : string) : GlobalTrainingStatus :=
  let initial_lesson := get_parameter_state g parameter_name in
  if bool_decide (initial_lesson = None) || negb restore then
    set_parameter_state g parameter_name 0
  else g.

Definition __init__ (settings : list (string * EnvironmentParameterSettings))
    (run_seed : Z) (restore : bool) (g : GlobalTrainingStatus) (h : heap)
  : world * heap :=
  let g' := fold_left (init_lesson restore) settings.*1 g in
  let smoothing :=
    fold_left (fun (d : gmap string float) key => <[key := 0%float]> d)
      settings.*1 ∅ in
  let m := {| _dict_settings := settings; _smoothing_values := smoothing |} in
  ({| self := m; status := g' |}, _set_sampler_seeds m run_seed h).

Definition get_minimum_reward_buffer_size (m : EnvironmentParameterManager)
    (behavior_name : string) : Z :=
  fold_left
    (fun result settings =>
       fold_left
         (fun result lesson =>
            match completion_criteria lesson with
            | Some cc =>
                if bool_decide (behavior cc = behavior_name) then
                  Z.max result (min_lesson_length cc)
                else result
            | None => result
            end)
         (lessons settings) result)
    (_dict_settings m).*2 1.

Definition get_current_lesson_number (w : world) : list (string * option Z) :=
  map (fun parameter_name =>
         (parameter_name, get_parameter_state (status w) parameter_name))
      (_dict_settings (self w)).*1.

(** [get_current_samplers]: the loop, on the dictionary built so far. *)
Fixpoint current_samplers_loop (g : GlobalTrainingStatus)
    (items : list (string * EnvironmentParameterSettings))
    (samplers : gmap string loc) : outcome (gmap string loc) :=
  match items with
  | [] => Return samplers
  | (param_name, settings) :: items =>
      match get_parameter_state g param_name with
      | None => Raise TypeError
      | Some lesson_num =>
          match getitem (lessons settings) lesson_num with
          | Return lesson =>
              current_samplers_loop g items
                (<[param_name := sampler lesson]> samplers)
          | Raise e => Raise e
          end
      end
  end.

Definition get_current_samplers (w : world) : outcome (gmap string loc) :=
  current_samplers_loop (status w) (_dict_settings (self w)) ∅.

Section Evaluator.

(** [numpy.mean] on a list of floats; numpy is not part of the sources. *)
Variable np_mean : list float -> float.

Definition _need_increment (increment_condition : CompletionCriteriaSettings)
    (progress : float) (reward_buffer : list float) (smoothing : float)
  : bool * float :=
  if Z.of_nat (length reward_buffer) <? min_lesson_length increment_condition
  then (false, smoothing)
  else if bool_decide (measure increment_condition = PROGRESS)
          && (threshold increment_condition <? progress)%float
  then (true, smoothing)
  else if bool_decide (measure increment_condition = REWARD) then
    if Z.of_nat (length reward_buffer) <? 1 then (false, smoothing)
    else
      let measure := np_mean reward_buffer in
      if is_nan measure then (false, smoothing)
      else
        let '(measure, smoothing) :=
          if signal_smoothing increment_condition then
            let measure := (0.25 * smoothing + 0.75 * measure)%float in
            (measure, measure)
          else (measure, smoothing) in
        if (threshold increment_condition <? measure)%float
        then (true, smoothing)
        else (false, smoothing)
  else (false, smoothing).

(** The body of the loop of [update_lessons], on the flags
    [(updated, must_reset)]. *)
Definition update_parameter (trainer_steps trainer_max_steps : gmap string Z)
    (trainer_reward_buffer : gmap string (list float))
    (flags : bool * bool) (item : string * EnvironmentParameterSettings)
  : exec world (bool * bool) :=
  let '(param_name, settings) := item in
  (lesson_num <- gets (fun w => get_parameter_state (status w) param_name) ;;
   match lesson_num with
   | None => lift (Raise TypeError)
   | Some lesson_num =>
     lesson <- lift (getitem (lessons settings) lesson_num) ;;
     match completion_criteria lesson with
     | Some criteria =>
       if Z.of_nat (length (lessons settings)) >? lesson_num then
         let behavior_to_consider := behavior criteria in
         steps <- lift (dict_getitem trainer_steps behavior_to_consider) ;;
         steps <- lift (float_of_int steps) ;;
         max_steps <- lift (dict_getitem trainer_max_steps behavior_to_consider) ;;
         max_steps <- lift (float_of_int max_steps) ;;
         progress <- lift (truediv steps max_steps) ;;
         reward_buffer <-
           lift (dict_getitem trainer_reward_buffer behavior_to_consider) ;;
         smoothing <-
           bind (gets (fun w => _smoothing_values (self w)))
                (fun d => lift (dict_getitem d param_name)) ;;
         let '(must_increment, new_smoothing) :=
           _need_increment criteria progress reward_buffer smoothing in
         modify (set_smoothing param_name new_smoothing) ;;
         if must_increment then
           modify (set_lesson_num param_name (lesson_num + 1)) ;;
           next <- lift (getitem (lessons settings) (lesson_num + 1)) ;;
           logger_info
             ("Parameter '" +:+ param_name
              +:+ "' has changed. Now in lesson '" +:+ name next +:+ "'")%string ;;
           ret (true, if require_reset criteria then true else snd flags)
         else ret flags
       else ret flags
     | None => ret flags
     end
   end)%exec.

Fixpoint update_loop (trainer_steps trainer_max_steps : gmap string Z)
    (trainer_reward_buffer : gmap string (list float))
    (items : list (string * EnvironmentParameterSettings))
    (flags : bool * bool) : exec world (bool * bool) :=
  match items with
  | [] => ret flags
  | item :: items =>
      (flags <- update_parameter trainer_steps trainer_max_steps
                  trainer_reward_buffer flags item ;;
       update_loop trainer_steps trainer_max_steps trainer_reward_buffer
         items flags)%exec
  end.

Definition update_lessons (trainer_steps trainer_max_steps : gmap string Z)
    (trainer_reward_buffer : gmap string (list float))
  : exec world (bool * bool) :=
  fun w =>
    update_loop trainer_steps trainer_max_steps trainer_reward_buffer
      (_dict_settings (self w)) (false, false) w.

End Evaluator.

(** Modelled from the spec: [average(rewardBuffer)], the sum of the values
    from left to right in binary64 divided by their count; the average of
    no value is not a number. *)
Definition sequential_mean (reward_buffer : list float) : float :=
  (fold_left add reward_buffer 0 / round_int (Z.of_nat (length reward_buffer)))%float.


(** ** Notions the statements are phrased with *)

(** The lessons of all parameters in enumeration order: parameters in the
    order of the settings, lessons in sequence order. *)
Definition lessons_in_order (m : EnvironmentParameterManager) : list Lesson :=
  flat_map (fun item => lessons (snd item)) (_dict_settings m).

(** How many of the lessons before position [i] of the enumeration had the
    sentinel seed in the heap [h]. *)
Definition sentinels_before (h : heap) (m : EnvironmentParameterManager)
    (i : nat) : nat :=
  length (filter (fun lesson => seed (h (sampler lesson)) = -1)
            (take i (lessons_in_order m))).

(** The [min_lesson_length] of a lesson whose completion criteria targets
    [behavior_name]. *)
Definition targets (behavior_name : string) (lesson : Lesson) : option Z :=
  match completion_criteria lesson with
  | Some cc =>
      if bool_decide (behavior cc = behavior_name)
      then Some (min_lesson_length cc) else None
  | None => None
  end.

(** The [min_lesson_length] values of all lessons, across all parameters,
    whose completion criteria targets [behavior_name]. *)
Definition matching_lengths (m : EnvironmentParameterManager)
    (behavior_name : string) : list Z :=
  omap (targets behavior_name) (lessons_in_order m).

(** The maximum of a list of integers, when it has one. *)
Fixpoint maximum (l : list Z) : option Z :=
  match l with
  | [] => None
  | x :: l =>
      match maximum l with
      | None => Some x
      | Some y => Some (Z.max x y)
      end
  end.

(** Parameter [p] is left alone between the worlds [w] and [w']: its
    persisted lesson index and its smoothing value are the same, and the set
    operation of the status was not called for it. *)
Definition untouched (p : string) (w w' : world) : Prop :=
  get_parameter_state (status w') p = get_parameter_state (status w) p
  /\ _smoothing_values (self w') !! p = _smoothing_values (self w) !! p
  /\ exists new : list (string * Z),
       set_calls (status w') = new ++ set_calls (status w) /\ p ∉ new.*1.

(** The current lesson of a parameter can be looked up: the status holds a
    lesson index for it and the lessons have an item at that index. *)
Definition has_current_lesson (g : GlobalTrainingStatus)
    (item : string * EnvironmentParameterSettings) : Prop :=
  exists (i : Z) (lesson : Lesson),
    get_parameter_state g (fst item) = Some i
    /\ getitem (lessons (snd item)) i = Return lesson.

(** The lesson index of a parameter is one of [0 .. len(lessons) - 1]. *)
Definition in_range (g : GlobalTrainingStatus)
    (item : string * EnvironmentParameterSettings) : Prop :=
  exists i : Z,
    get_parameter_state g (fst item) = Some i
    /\ 0 <= i < Z.of_nat (length (lessons (snd item))).

(** Every lesson that has a completion criteria is followed by a lesson. *)
Definition chained (settings : EnvironmentParameterSettings) : Prop :=
  forall (i : nat) (lesson : Lesson),
    lessons settings !! i = Some lesson ->
    is_Some (completion_criteria lesson) ->
    (S i < length (lessons settings))%nat.

(** The three dictionaries of a step have what the criteria needs: the
    step count and the maximum-step count of its behavior, both converting
    to floats with a quotient, and the reward buffer of its behavior. *)
Definition supplied (trainer_steps trainer_max_steps : gmap string Z)
    (trainer_reward_buffer : gmap string (list float))
    (criteria : CompletionCriteriaSettings) : Prop :=
  exists (n d : Z) (fn fd progress : float) (buf : list float),
    trainer_steps !! behavior criteria = Some n
    /\ float_of_int n = Return fn
    /\ trainer_max_steps !! behavior criteria = Some d
    /\ float_of_int d = Return fd
    /\ truediv fn fd = Return progress
    /\ trainer_reward_buffer !! behavior criteria = Some buf.

(** The settings and the names that have a lesson index or a smoothing value
    are the same in both worlds. *)
Definition same_keys (w w' : world) : Prop :=
  _dict_settings (self w') = _dict_settings (self w)
  /\ (forall k, is_Some (_smoothing_values (self w') !! k)
                <-> is_Some (_smoothing_values (self w) !! k))
  /\ (forall k, is_Some (get_parameter_state (status w') k)
                <-> is_Some (get_parameter_state (status w) k)).

(** ** Inputs used in the examples *)

Module Examples.

(** Progress above one half, once one reward is in the buffer. *)
Definition progress_half : CompletionCriteriaSettings :=
  {| behavior := "walker"; measure := PROGRESS; min_lesson_length := 1;
     signal_smoothing := false; threshold := 0.5; require_reset := false |}.

(** Smoothed reward above 0.9, once four rewards are in the buffer. *)
Definition reward_smoothed : CompletionCriteriaSettings :=
  {| behavior := "walker"; measure := REWARD; min_lesson_length := 4;
     signal_smoothing := true; threshold := 0.9; require_reset := true |}.

(** A criteria that leaves [min_lesson_length] at 0. *)
Definition no_minimum : CompletionCriteriaSettings :=
  {| behavior := "walker"; measure := PROGRESS; min_lesson_length := 0;
     signal_smoothing := false; threshold := 0.5; require_reset := false |}.

Definition gravity_only : EnvironmentParameterManager :=
  {| _dict_settings :=
       [("gravity",
         {| lessons :=
              [ {| sampler := 0%nat; completion_criteria := Some no_minimum;
                   name := "light" |};
                {| sampler := 1%nat; completion_criteria := None;
                   name := "heavy" |} ] |})];
     _smoothing_values := {["gravity" := 0%float]} |}.

(** A curriculum whose two lessons both carry a completion criteria. *)
Definition two_lessons : EnvironmentParameterSettings :=
  {| lessons :=
       [ {| sampler := 0%nat; completion_criteria := Some progress_half;
            name := "light" |};
         {| sampler := 1%nat; completion_criteria := Some progress_half;
            name := "heavy" |} ] |}.

Definition no_status : GlobalTrainingStatus :=
  {| saved_state := ∅; set_calls := [] |}.

Definition no_seed : heap := fun _ => {| seed := -1 |}.

(** The world built by the constructor for that curriculum. *)
Definition fresh : world :=
  fst (__init__ [("gravity", two_lessons)] 0 false no_status no_seed).

Definition steps : gmap string Z := {["walker" := 9]}.
Definition max_steps : gmap string Z := {["walker" := 10]}.
Definition rewards : gmap string (list float) := {["walker" := [0]%float]}.

Definition negative_max_steps : gmap string Z := {["walker" := -10]}.
Definition zero_max_steps : gmap string Z := {["walker" := 0]}.

(** A parameter with a single lesson and no completion criteria. *)
Definition single_lesson : EnvironmentParameterSettings :=
  {| lessons :=
       [ {| sampler := 2%nat; completion_criteria := None; name := "calm" |} ] |}.

(** The world built by the constructor for the two parameters. *)
Definition fresh_pair : world :=
  fst (__init__ [("gravity", two_lessons); ("wind", single_lesson)] 0 false
         no_status no_seed).

(** A curriculum of three lessons, the last one without criteria, and a
    status left by an earlier run at the last lesson. *)
Definition three_lessons : EnvironmentParameterSettings :=
  {| lessons :=
       [ {| sampler := 0%nat; completion_criteria := Some progress_half;
            name := "light" |};
         {| sampler := 1%nat; completion_criteria := Some reward_smoothed;
            name := "medium" |};
         {| sampler := 2%nat; completion_criteria := None;
            name := "heavy" |} ] |}.

Definition saved_at_2 : GlobalTrainingStatus :=
  {| saved_state := {["gravity" := 2]}; set_calls := [] |}.

(** Two parameters, three lessons, the second of which has a seed of its
    own. *)
Definition seeded_pair : EnvironmentParameterManager :=
  {| _dict_settings :=
       [("gravity",
         {| lessons :=
              [ {| sampler := 0%nat; completion_criteria := Some progress_half;
                   name := "light" |};
                {| sampler := 1%nat; completion_criteria := None;
                   name := "heavy" |} ] |});
        ("wind", single_lesson)];
     _smoothing_values := ∅ |}.

Definition one_seed : heap :=
  fun l => if decide (l = 1%nat) then {| seed := 7 |} else {| seed := -1 |}.

Definition light : Lesson :=
  {| sampler := 0%nat; completion_criteria := Some progress_half; name := "light" |}.

Definition heavy : Lesson :=
  {| sampler := 1%nat; completion_criteria := None; name := "heavy" |}.

Definition calm : Lesson :=
  {| sampler := 2%nat; completion_criteria := None; name := "calm" |}.

(** The curriculum of "gravity" in [seeded_pair]. *)
Definition light_then_heavy : EnvironmentParameterSettings :=
  {| lessons := [light; heavy] |}.

(** A criteria that asks for a reset of the environment. *)
Definition progress_reset : CompletionCriteriaSettings :=
  {| behavior := "walker"; measure := PROGRESS; min_lesson_length := 1;
     signal_smoothing := false; threshold := 0.5; require_reset := true |}.

Definition reset_then_calm : EnvironmentParameterSettings :=
  {| lessons :=
       [ {| sampler := 0%nat; completion_criteria := Some progress_reset;
            name := "storm" |};
         calm ] |}.

(** The world built by the constructor for that curriculum. *)
Definition fresh_reset : world :=
  fst (__init__ [("wind", reset_then_calm)] 0 false no_status no_seed).

(** The world built by the constructor for the curriculum of three lessons,
    the last one without criteria. *)
Definition fresh_three : world :=
  fst (__init__ [("gravity", three_lessons)] 0 false no_status no_seed).

Definition few_steps : gmap string Z := {["walker" := 1]}.

(** A status left at a lesson index that the two lessons do not have, and
    the world a constructor restores from it. *)
Definition saved_at_5 : GlobalTrainingStatus :=
  {| saved_state := {["gravity" := 5]}; set_calls := [] |}.

Definition restored_at_5 : world :=
  fst (__init__ [("gravity", two_lessons)] 0 true saved_at_5 no_seed).

Definition no_steps : gmap string Z := ∅.

End Examples.
(** ** Comparison of binary64 values *)

Lemma SFcompare_antisym (x y : spec_float) :
  SFcompare x y = option_map CompOpp (SFcompare y x).
Proof.
  destruct x as [sx|sx| |sx mx ex], y as [sy|sy| |sy my ey]; simpl;
    try reflexivity;
    try (destruct sx; reflexivity);
    try (destruct sy; reflexivity);
    try (destruct sx, sy; reflexivity).
  destruct sx, sy; simpl; try reflexivity; f_equal;
    rewrite (Z.compare_antisym ex ey);
    destruct (ex ?= ey); simpl; try reflexivity;
    rewrite (Pos.compare_cont_antisym my mx Eq); simpl;
    try rewrite CompOpp_involutive; reflexivity.
Qed.

(** A float equal to the threshold is not strictly above it. *)
Lemma ltb_false_of_eqb (t x : float) :
  (x =? t)%float = true -> (t <? x)%float = false.
Proof.
  rewrite FloatAxioms.eqb_spec, FloatAxioms.ltb_spec. unfold SFeqb, SFltb.
  rewrite (SFcompare_antisym (Prim2SF t) (Prim2SF x)).
  destruct (SFcompare (Prim2SF x) (Prim2SF t)) as [[]|]; simpl; congruence.
Qed.

(** ** The completion-criteria evaluator *)

Section EvaluatorFacts.

Variable np_mean : list float -> float.

Lemma need_increment_below_gate c progress buf s :
  Z.of_nat (length buf) < min_lesson_length c ->
  _need_increment np_mean c progress buf s = (false, s).
Proof.
  intros Hlen. unfold _need_increment.
  destruct (Z.ltb_spec (Z.of_nat (length buf)) (min_lesson_length c)); [reflexivity | lia].
Qed.

Lemma need_increment_PROGRESS c progress buf s :
  measure c = PROGRESS ->
  min_lesson_length c <= Z.of_nat (length buf) ->
  _need_increment np_mean c progress buf s
  = ((threshold c <? progress)%float, s).
Proof.
  intros Hm Hlen. unfold _need_increment.
  destruct (Z.ltb_spec (Z.of_nat (length buf)) (min_lesson_length c)); [lia |].
  rewrite Hm. simpl.
  destruct (threshold c <? progress)%float; reflexivity.
Qed.

Lemma need_increment_REWARD c progress buf s :
  measure c = REWARD ->
  min_lesson_length c <= Z.of_nat (length buf) ->
  buf <> [] ->
  _need_increment np_mean c progress buf s
  = let m := np_mean buf in
    if is_nan m then (false, s)
    else if signal_smoothing c then
      let m' := (0.25 * s + 0.75 * m)%float in
      ((threshold c <? m')%float, m')
    else ((threshold c <? m)%float, s).
Proof.
  intros Hm Hlen Hne. unfold _need_increment.
  destruct (Z.ltb_spec (Z.of_nat (length buf)) (min_lesson_length c)); [lia |].
  rewrite Hm. simpl.
  destruct (Z.ltb_spec (Z.of_nat (length buf)) 1) as [Hlt|_].
  { destruct buf; [congruence | simpl in Hlt; lia]. }
  destruct (is_nan (np_mean buf)); [reflexivity |].
  destruct (signal_smoothing c); simpl.
  - destruct (threshold c <? _)%float; reflexivity.
  - destruct (threshold c <? _)%float; reflexivity.
Qed.

End EvaluatorFacts.

(** C3: whatever the measure kind, the progress, the reward buffer and the
    prior smoothing value, a reward buffer strictly shorter than the
    criteria's [min_lesson_length] makes the evaluator return
    [(False, smoothing)]; the mean of the buffer plays no part, and the gate
    holds for a PROGRESS criteria as for a REWARD one. *)
Theorem need_increment_gate
    (np_mean : list float -> float) (c : CompletionCriteriaSettings)
    (progress : float) (reward_buffer : list float) (smoothing : float) :
  Z.of_nat (length reward_buffer) < min_lesson_length c ->
  _need_increment np_mean c progress reward_buffer smoothing = (false, smoothing).
Proof. apply need_increment_below_gate. Qed.

Lemma need_increment_gate_witness :
  Z.of_nat (length [1; 1; 1]%float) < min_lesson_length Examples.reward_smoothed
  /\ _need_increment sequential_mean Examples.reward_smoothed 0.99 [1; 1; 1]%float 0.5
     = (false, 0.5%float)
  /\ _need_increment sequential_mean Examples.progress_half 0.99 [] 0.5
     = (false, 0.5%float).
Proof.
  split; [simpl; lia |].
  split; apply need_increment_gate; simpl; lia.
Defined.

(** C8: a PROGRESS criteria that passes the buffer-length gate signals an
    increment exactly when [progress > threshold], a progress equal to the
    threshold does not advance, and the smoothing value is returned as it
    was given. With threshold 0.5, [min_lesson_length] 1 and buffer [0.0],
    progress 0.51 advances and progress 0.50 does not. *)
Theorem need_increment_progress :
  (forall (np_mean : list float -> float) (c : CompletionCriteriaSettings)
          (progress : float) (reward_buffer : list float) (smoothing : float),
      measure c = PROGRESS ->
      min_lesson_length c <= Z.of_nat (length reward_buffer) ->
      _need_increment np_mean c progress reward_buffer smoothing
      = ((threshold c <? progress)%float, smoothing)
      /\ ((progress =? threshold c)%float = true ->
          fst (_need_increment np_mean c progress reward_buffer smoothing) = false))
  /\ (forall (np_mean : list float -> float) (c : CompletionCriteriaSettings)
             (smoothing : float),
         measure c = PROGRESS -> threshold c = 0.5%float ->
         min_lesson_length c = 1 ->
         _need_increment np_mean c 0.51 [0]%float smoothing = (true, smoothing)
         /\ _need_increment np_mean c 0.50 [0]%float smoothing = (false, smoothing)).
Proof.
  split.
  - intros np_mean c progress buf s Hm Hlen.
    rewrite need_increment_PROGRESS by assumption. split; [reflexivity |].
    simpl. apply ltb_false_of_eqb.
  - intros np_mean c s Hm Ht Hlen.
    rewrite !need_increment_PROGRESS by (try assumption; rewrite Hlen; simpl; lia).
    rewrite Ht. split; reflexivity.
Qed.

Lemma need_increment_progress_witness :
  _need_increment sequential_mean Examples.progress_half 0.75 [0]%float 0.25
  = (true, 0.25%float)
  /\ _need_increment sequential_mean Examples.progress_half 0.51 [0]%float 0.25
     = (true, 0.25%float)
  /\ _need_increment sequential_mean Examples.progress_half 0.50 [0]%float 0.25
     = (false, 0.25%float).
Proof.
  destruct need_increment_progress as [Hgen Hex].
  split.
  - destruct (Hgen sequential_mean Examples.progress_half 0.75%float [0]%float 0.25%float)
      as [-> _]; [reflexivity | simpl; lia | reflexivity].
  - apply (Hex sequential_mean Examples.progress_half 0.25%float); reflexivity.
Defined.

(** C9: for a REWARD criteria that passes the buffer-length gate with a
    non-empty buffer whose mean is not a number, the evaluator returns
    [(False, smoothing)]: no advancement, and the smoothing value given is
    returned untouched. *)
Theorem need_increment_nan_mean
    (np_mean : list float -> float) (c : CompletionCriteriaSettings)
    (progress : float) (reward_buffer : list float) (smoothing : float) :
  measure c = REWARD ->
  min_lesson_length c <= Z.of_nat (length reward_buffer) ->
  reward_buffer <> [] ->
  is_nan (np_mean reward_buffer) = true ->
  _need_increment np_mean c progress reward_buffer smoothing = (false, smoothing).
Proof.
  intros Hm Hlen Hne Hnan.
  rewrite need_increment_REWARD by assumption. simpl. now rewrite Hnan.
Qed.

Lemma need_increment_nan_mean_witness :
  is_nan (sequential_mean [1; infinity; neg_infinity; 1]%float) = true
  /\ _need_increment sequential_mean Examples.reward_smoothed 0.99
       [1; infinity; neg_infinity; 1]%float 0.5
     = (false, 0.5%float).
Proof.
  split; [reflexivity |].
  apply need_increment_nan_mean;
    [reflexivity | simpl; lia | discriminate | reflexivity].
Defined.

(** C2: for a REWARD criteria with smoothing enabled, a reward buffer that
    passes the length gate and has a mean [m] that is a number, and a prior
    smoothing value [s], the evaluator computes [0.25 * s + 0.75 * m],
    returns it as the new smoothing value and signals an increment exactly
    when it is strictly above the threshold. (The mean of an empty buffer is
    not a number.) With threshold 0.9, buffer [1, 1, 1, 1] and
    [min_lesson_length] 4, a first call with smoothing 0 returns
    [(False, 0.75)] and a second call with smoothing 0.75 returns
    [(True, 0.9375)]. *)
Theorem need_increment_reward_smoothing :
  (forall (np_mean : list float -> float) (c : CompletionCriteriaSettings)
          (progress : float) (reward_buffer : list float) (smoothing : float),
      is_nan (np_mean []) = true ->
      measure c = REWARD -> signal_smoothing c = true ->
      min_lesson_length c <= Z.of_nat (length reward_buffer) ->
      is_nan (np_mean reward_buffer) = false ->
      let measure := (0.25 * smoothing + 0.75 * np_mean reward_buffer)%float in
      _need_increment np_mean c progress reward_buffer smoothing
      = ((threshold c <? measure)%float, measure))
  /\ (forall (np_mean : list float -> float) (c : CompletionCriteriaSettings)
             (progress : float),
         np_mean [1; 1; 1; 1]%float = 1%float ->
         measure c = REWARD -> signal_smoothing c = true ->
         threshold c = 0.9%float -> min_lesson_length c = 4 ->
         _need_increment np_mean c progress [1; 1; 1; 1]%float 0
         = (false, 0.75%float)
         /\ _need_increment np_mean c progress [1; 1; 1; 1]%float 0.75
            = (true, 0.9375%float)).
Proof.
  split.
  - intros np_mean c progress buf s Hnil Hm Hs Hlen Hnan.
    assert (buf <> []) as Hne by (intros ->; congruence).
    rewrite need_increment_REWARD by assumption. simpl.
    now rewrite Hnan, Hs.
  - intros np_mean c progress Hmean Hm Hs Ht Hlen.
    rewrite !need_increment_REWARD
      by (try assumption; try discriminate; rewrite Hlen; simpl; lia).
    simpl. rewrite Hmean, Hs, Ht. split; reflexivity.
Qed.

Lemma need_increment_reward_smoothing_witness :
  is_nan (sequential_mean []) = true
  /\ sequential_mean [1; 1; 1; 1]%float = 1%float
  /\ _need_increment sequential_mean Examples.reward_smoothed 0.3
       [1; 0.5; 1; 0.5]%float 0.5
     = (false, 0.6875%float)
  /\ _need_increment sequential_mean Examples.reward_smoothed 0.3
       [1; 1; 1; 1]%float 0
     = (false, 0.75%float)
  /\ _need_increment sequential_mean Examples.reward_smoothed 0.3
       [1; 1; 1; 1]%float 0.75
     = (true, 0.9375%float).
Proof.
  destruct need_increment_reward_smoothing as [Hgen Hex].
  split; [reflexivity |]. split; [reflexivity |]. split.
  - rewrite (Hgen sequential_mean Examples.reward_smoothed 0.3%float
               [1; 0.5; 1; 0.5]%float 0.5%float);
      [reflexivity | reflexivity | reflexivity | reflexivity | simpl; lia | reflexivity].
  - apply (Hex sequential_mean Examples.reward_smoothed 0.3%float); reflexivity.
Defined.

(** ** The minimum size of the reward buffer *)

Lemma fold_left_max (l : list Z) (r : Z) :
  fold_left Z.max l r
  = match maximum l with None => r | Some v => Z.max r v end.
Proof.
  revert r. induction l as [|x l IH]; intros r; simpl; [reflexivity |].
  rewrite IH. destruct (maximum l) as [v|]; [| reflexivity].
  now rewrite Z.max_assoc.
Qed.

Lemma fold_left_targets (behavior_name : string) (ls : list Lesson) (r : Z) :
  fold_left
    (fun result lesson =>
       match completion_criteria lesson with
       | Some cc =>
           if bool_decide (behavior cc = behavior_name)
           then Z.max result (min_lesson_length cc) else result
       | None => result
       end) ls r
  = fold_left Z.max (omap (targets behavior_name) ls) r.
Proof.
  revert r. induction ls as [|lesson ls IH]; intros r; simpl; [reflexivity |].
  rewrite IH. unfold targets at 2.
  destruct (completion_criteria lesson) as [cc|]; [| reflexivity].
  destruct (bool_decide (behavior cc = behavior_name)); reflexivity.
Qed.

Lemma minimum_reward_buffer_size_fold (m : EnvironmentParameterManager)
    (behavior_name : string) :
  get_minimum_reward_buffer_size m behavior_name
  = fold_left Z.max (matching_lengths m behavior_name) 1.
Proof.
  unfold get_minimum_reward_buffer_size, matching_lengths, lessons_in_order.
  generalize 1. induction (_dict_settings m) as [|[param settings] items IH];
    intros r; simpl; [reflexivity |].
  rewrite fold_left_targets, IH, omap_app, fold_left_app. reflexivity.
Qed.

(** C7, as the code has it: [get_minimum_reward_buffer_size] returns 1 when
    no lesson of any parameter has a completion criteria targeting the
    behavior, and otherwise the maximum of 1 and of the [min_lesson_length]
    values of all the lessons, across all parameters, whose completion
    criteria targets it. *)
Theorem minimum_reward_buffer_size_spec (m : EnvironmentParameterManager)
    (behavior_name : string) :
  get_minimum_reward_buffer_size m behavior_name
  = match maximum (matching_lengths m behavior_name) with
    | None => 1
    | Some longest => Z.max 1 longest
    end.
Proof. rewrite minimum_reward_buffer_size_fold. apply fold_left_max. Qed.

(** C7 as stated fails: a lone lesson targeting the behavior with
    [min_lesson_length] 0 has 0 as the maximum of the matching values, and
    the accessor returns 1. *)
Lemma minimum_reward_buffer_size_above_maximum :
  maximum (matching_lengths Examples.gravity_only "walker") = Some 0
  /\ get_minimum_reward_buffer_size Examples.gravity_only "walker" <> 0.
Proof. split; [reflexivity | discriminate]. Qed.

(** ** Seeding the samplers *)

Lemma set_sampler_seeds_flat (m : EnvironmentParameterManager) (run_seed : Z)
    (h : heap) :
  _set_sampler_seeds m run_seed h
  = snd (fold_left (seed_lesson run_seed) (lessons_in_order m) (0, h)).
Proof.
  unfold _set_sampler_seeds, lessons_in_order. f_equal.
  generalize (0, h). induction (_dict_settings m) as [|[param settings] items IH];
    intros acc; simpl; [reflexivity |].
  now rewrite IH, fold_left_app.
Qed.

Lemma filter_sentinel_agree (h h' : heap) (ls : list Lesson) :
  (forall lesson, lesson ∈ ls -> h' (sampler lesson) = h (sampler lesson)) ->
  filter (fun lesson => seed (h' (sampler lesson)) = -1) ls
  = filter (fun lesson => seed (h (sampler lesson)) = -1) ls.
Proof.
  induction ls as [|a ls IH]; intros Hagree; [reflexivity |].
  rewrite !filter_cons, (Hagree a) by left.
  rewrite IH by (intros; apply Hagree; now right). reflexivity.
Qed.

(** One pass over lessons whose samplers are distinct objects. *)
Lemma seed_lessons_spec (run_seed : Z) (ls : list Lesson) :
  forall (offset : Z) (h : heap),
    NoDup (sampler <$> ls) ->
    let h' := snd (fold_left (seed_lesson run_seed) ls (offset, h)) in
    (forall l, l ∉ sampler <$> ls -> h' l = h l)
    /\ (forall i lesson,
           ls !! i = Some lesson ->
           if decide (seed (h (sampler lesson)) = -1) then
             seed (h' (sampler lesson))
             = run_seed + offset
               + Z.of_nat (length (filter (fun x => seed (h (sampler x)) = -1)
                                     (take i ls)))
           else h' (sampler lesson) = h (sampler lesson)).
Proof.
  induction ls as [|a ls IH]; intros offset h Hnd; simpl.
  - split; [reflexivity | intros i lesson Hi; discriminate].
  - rewrite fmap_cons in Hnd.
    pose proof (NoDup_cons_1_1 _ _ Hnd) as Ha. apply NoDup_cons_1_2 in Hnd.
    set (acc := if seed (h (sampler a)) =? -1 then _ else _).
    assert (exists offset1 h1, acc = (offset1, h1)
              /\ (forall l, l <> sampler a -> h1 l = h l)
              /\ (if decide (seed (h (sampler a)) = -1)
                  then offset1 = offset + 1 /\ seed (h1 (sampler a)) = run_seed + offset
                  else offset1 = offset /\ h1 = h))
      as (offset1 & h1 & -> & Hframe & Hstep).
    { subst acc. destruct (Z.eqb_spec (seed (h (sampler a))) (-1)) as [E|E].
      - eexists _, _. split; [reflexivity |]. split.
        + intros l Hl. now rewrite fn_lookup_insert_ne.
        + rewrite decide_True by assumption. now rewrite fn_lookup_insert.
      - eexists _, _. split; [reflexivity |]. split; [reflexivity |].
        now rewrite decide_False by assumption. }
    destruct (IH offset1 h1 Hnd) as [IHframe IHat]. split.
    + intros l Hl. rewrite ?fmap_cons, not_elem_of_cons in Hl.
      destruct Hl as [Hl1 Hl2]. rewrite IHframe by assumption. now apply Hframe.
    + assert (forall lesson, lesson ∈ ls -> h1 (sampler lesson) = h (sampler lesson))
        as Hagree.
      { intros lesson Hin. apply Hframe. intros E. apply Ha.
        rewrite <- E. now apply list_elem_of_fmap_2. }
      intros [|i] lesson Hi; simpl in Hi.
      * injection Hi as <-. rewrite IHframe by assumption.
        destruct (decide (seed (h (sampler a)) = -1)) as [E|E].
        -- destruct Hstep as [_ ->]. simpl. lia.
        -- destruct Hstep as [_ ->]. reflexivity.
      * specialize (IHat i lesson Hi).
        assert (lesson ∈ ls) as Hin by (eapply list_elem_of_lookup_2; eassumption).
        rewrite (Hagree lesson Hin) in IHat.
        rewrite (filter_sentinel_agree h h1) in IHat
          by (intros x Hx; apply Hagree; eapply subseteq_take; eassumption).
        destruct (decide (seed (h (sampler lesson)) = -1)) as [E|E];
          [| assumption].
        rewrite IHat. simpl. rewrite filter_cons.
        destruct (decide (seed (h (sampler a)) = -1)) as [Ea|Ea].
        -- destruct Hstep as [-> _]. simpl. lia.
        -- destruct Hstep as [-> _]. reflexivity.
Qed.

(** Among the lessons before a later position there is one more with the
    sentinel seed than among those before an earlier such lesson. *)
Lemma filter_take_lt {A} (P : A -> Prop) `{forall x, Decision (P x)}
    (l : list A) (i j : nat) (x : A) :
  (i < j)%nat -> l !! i = Some x -> P x ->
  (length (filter P (take i l)) < length (filter P (take j l)))%nat.
Proof.
  intros Hij Hi HP.
  replace j with (S i + (j - S i))%nat by lia.
  rewrite <- take_take_drop, list.filter_app, length_app.
  rewrite (take_S_r _ _ _ Hi), list.filter_app, length_app,
    filter_singleton_True by (exact [] || assumption).
  simpl. lia.
Qed.

(** ** The per-step routine *)

Lemma untouched_refl (p : string) (w : world) : untouched p w w.
Proof.
  split; [reflexivity |]. split; [reflexivity |].
  exists []. split; [reflexivity | apply not_elem_of_nil].
Qed.

Lemma untouched_trans (p : string) (w1 w2 w3 : world) :
  untouched p w1 w2 -> untouched p w2 w3 -> untouched p w1 w3.
Proof.
  intros (Hs1 & Hv1 & new1 & Hc1 & Hn1) (Hs2 & Hv2 & new2 & Hc2 & Hn2).
  split; [congruence |]. split; [congruence |].
  exists (new2 ++ new1). split.
  - now rewrite Hc2, Hc1, app_assoc.
  - rewrite fmap_app, not_elem_of_app. tauto.
Qed.

Lemma untouched_set_smoothing (p q : string) (v : float) (w : world) :
  p <> q -> untouched p w (set_smoothing q v w).
Proof.
  intros Hne. split; [reflexivity |]. split.
  - simpl. now rewrite lookup_insert_ne by congruence.
  - exists []. split; [reflexivity | apply not_elem_of_nil].
Qed.

Lemma untouched_set_lesson_num (p q : string) (n : Z) (w : world) :
  p <> q -> untouched p w (set_lesson_num q n w).
Proof.
  intros Hne. split; [| split; [reflexivity |]].
  - unfold get_parameter_state. simpl. now rewrite lookup_insert_ne by congruence.
  - exists [(q, n)]. split; [reflexivity |].
    simpl. rewrite not_elem_of_cons. split; [assumption | apply not_elem_of_nil].
Qed.

Section StepFacts.

Variable np_mean : list float -> float.
Variables trainer_steps trainer_max_steps : gmap string Z.
Variable trainer_reward_buffer : gmap string (list float).

#[local] Abbreviation step :=
  (update_parameter np_mean trainer_steps trainer_max_steps trainer_reward_buffer).
#[local] Abbreviation loop :=
  (update_loop np_mean trainer_steps trainer_max_steps trainer_reward_buffer).

(** The worlds one iteration can lead to. *)
Lemma update_parameter_writes flags q settings w :
  let w' := snd (step flags (q, settings) w) in
  w' = w
  \/ exists v, w' = set_smoothing q v w
               \/ exists n, w' = set_lesson_num q n (set_smoothing q v w).
Proof.
  unfold update_parameter, bind, gets, lift, modify, ret, logger_info. simpl.
  repeat (case_match; simplify_eq/=); eauto.
Qed.

Lemma update_parameter_untouched flags p q settings w :
  p <> q -> untouched p w (snd (step flags (q, settings) w)).
Proof.
  intros Hne.
  destruct (update_parameter_writes flags q settings w) as [->|[v [->|[n ->]]]].
  - apply untouched_refl.
  - now apply untouched_set_smoothing.
  - apply (untouched_trans p w (set_smoothing q v w));
      [now apply untouched_set_smoothing | now apply untouched_set_lesson_num].
Qed.

Lemma update_loop_cons item items flags w :
  loop (item :: items) flags w
  = match step flags item w with
    | (Return flags', w') => loop items flags' w'
    | (Raise e, w') => (Raise e, w')
    end.
Proof. reflexivity. Qed.

Lemma update_loop_app items1 items2 flags w :
  loop (items1 ++ items2) flags w
  = match loop items1 flags w with
    | (Return flags', w') => loop items2 flags' w'
    | (Raise e, w') => (Raise e, w')
    end.
Proof.
  revert flags w. induction items1 as [|item items1 IH]; intros flags w;
    simpl; [reflexivity |].
  unfold bind. destruct (step flags item w) as [[flags'|e] w'];
    [apply IH | reflexivity].
Qed.

Lemma update_loop_untouched items flags p w :
  p ∉ items.*1 -> untouched p w (snd (loop items flags w)).
Proof.
  revert flags w. induction items as [|[q settings] items IH]; intros flags w Hp;
    [apply untouched_refl |].
  rewrite fmap_cons, not_elem_of_cons in Hp. destruct Hp as [Hne Hp].
  pose proof (update_parameter_untouched flags p q settings w Hne) as Hstep.
  rewrite update_loop_cons.
  destruct (step flags (q, settings) w) as [[flags'|e] w'];
    simpl in Hstep; [| assumption].
  eapply untouched_trans; [eassumption | now apply IH].
Qed.

(** A parameter whose current lesson has no completion criteria is
    passed over. *)
Lemma update_parameter_skip flags p settings w i lesson :
  get_parameter_state (status w) p = Some i ->
  getitem (lessons settings) i = Return lesson ->
  completion_criteria lesson = None ->
  step flags (p, settings) w = (Return flags, w).
Proof.
  intros Hget Hitem Hnone.
  unfold update_parameter, bind, gets, lift, ret. simpl.
  now rewrite Hget, Hitem, Hnone.
Qed.

Lemma getitem_Return_lt {A} (l : list A) (i : Z) (x : A) :
  getitem l i = Return x -> i < Z.of_nat (length l).
Proof.
  unfold getitem. destruct (Z.ltb_spec i 0); [lia |].
  destruct (Z.leb_spec 0 i); simpl; [| discriminate].
  destruct (Z.ltb_spec i (Z.of_nat (length l))); [lia | discriminate].
Qed.

(** With a maximum-step count of zero the iteration raises before the
    evaluator is called and before anything is written. *)
Lemma update_parameter_zero_max_steps flags p settings w i lesson criteria :
  get_parameter_state (status w) p = Some i ->
  getitem (lessons settings) i = Return lesson ->
  completion_criteria lesson = Some criteria ->
  trainer_max_steps !! behavior criteria = Some 0 ->
  exists e,
    step flags (p, settings) w = (Raise e, w)
    /\ (forall n, trainer_steps !! behavior criteria = Some n ->
                  is_raise (float_of_int n) = false -> e = ZeroDivisionError).
Proof.
  intros Hget Hitem Hcrit Hmax.
  pose proof (getitem_Return_lt _ _ _ Hitem) as Hlt.
  unfold update_parameter, bind, gets, lift, ret. simpl.
  rewrite Hget, Hitem, Hcrit.
  destruct (Z.gtb_spec (Z.of_nat (length (lessons settings))) i) as [_|]; [| lia].
  unfold dict_getitem at 1.
  destruct (trainer_steps !! behavior criteria) as [n|];
    [| eexists; split; [reflexivity | intros; discriminate]].
  destruct (float_of_int n) as [f|e] eqn:Ef;
    [| eexists; split; [reflexivity | intros ? [= <-]; rewrite Ef; discriminate]].
  unfold dict_getitem. rewrite Hmax.
  change (float_of_int 0) with (Return 0%float). unfold truediv.
  change (0 =? 0)%float with true.
  eexists; split; reflexivity.
Qed.

(** When the criteria of the last lesson is met, the lesson index is stored
    one past the end, and building the message for the log raises. *)
Lemma update_parameter_past_last flags p settings w i lesson criteria
    n d fn fd progress buf s s' :
  get_parameter_state (status w) p = Some i ->
  getitem (lessons settings) i = Return lesson ->
  completion_criteria lesson = Some criteria ->
  getitem (lessons settings) (i + 1) = Raise IndexError ->
  trainer_steps !! behavior criteria = Some n ->
  float_of_int n = Return fn ->
  trainer_max_steps !! behavior criteria = Some d ->
  float_of_int d = Return fd ->
  truediv fn fd = Return progress ->
  trainer_reward_buffer !! behavior criteria = Some buf ->
  _smoothing_values (self w) !! p = Some s ->
  _need_increment np_mean criteria progress buf s = (true, s') ->
  step flags (p, settings) w
  = (Raise IndexError, set_lesson_num p (i + 1) (set_smoothing p s' w)).
Proof.
  intros Hget Hitem Hcrit Hnext Hn Hfn Hd Hfd Hdiv Hbuf Hs Heval.
  pose proof (getitem_Return_lt _ _ _ Hitem) as Hlt.
  unfold update_parameter, bind, gets, lift, modify, ret. simpl.
  rewrite Hget, Hitem, Hcrit.
  destruct (Z.gtb_spec (Z.of_nat (length (lessons settings))) i) as [_|]; [| lia].
  unfold dict_getitem. rewrite Hn, Hfn, Hd, Hfd, Hdiv, Hbuf, Hs, Heval. simpl.
  now rewrite Hnext.
Qed.

(** An iteration that returns leaves the parameter at a lesson index that
    can be looked up. *)
Lemma update_parameter_return_valid flags p settings w flags' w' :
  step flags (p, settings) w = (Return flags', w') ->
  exists i lesson,
    get_parameter_state (status w') p = Some i
    /\ getitem (lessons settings) i = Return lesson.
Proof.
  unfold update_parameter, bind, gets, lift, modify, ret, logger_info. simpl.
  intros Hstep.
  repeat (case_match; simplify_eq/=); eauto.
  eexists _, _. split; [| eassumption].
  unfold get_parameter_state. simpl. apply lookup_insert_eq.
Qed.

End StepFacts.

(** C10: in any call of [update_lessons], a parameter whose current lesson
    has no completion criteria is passed over. Its persisted lesson index
    and its smoothing value are what they were, the status is not written
    for it, and the call ends as it would without the parameter: same
    outcome, hence same [(updated, must_reset)] flags, in the same world.
    (The names of the parameters are the keys of a dict: no name occurs
    twice.) *)
Theorem update_lessons_skips_without_criteria
    (np_mean : list float -> float) (trainer_steps trainer_max_steps : gmap string Z)
    (trainer_reward_buffer : gmap string (list float)) (w : world)
    (before after : list (string * EnvironmentParameterSettings))
    (p : string) (settings : EnvironmentParameterSettings) (i : Z)
    (lesson : Lesson) :
  _dict_settings (self w) = before ++ (p, settings) :: after ->
  NoDup ((_dict_settings (self w)).*1) ->
  get_parameter_state (status w) p = Some i ->
  getitem (lessons settings) i = Return lesson ->
  completion_criteria lesson = None ->
  let r := update_lessons np_mean trainer_steps trainer_max_steps
             trainer_reward_buffer w in
  untouched p w (snd r)
  /\ r = update_loop np_mean trainer_steps trainer_max_steps
           trainer_reward_buffer (before ++ after) (false, false) w.
Proof.
  intros Hsettings Hnd Hget Hitem Hnone. unfold update_lessons.
  rewrite Hsettings in *. clear Hsettings.
  rewrite fmap_app, fmap_cons in Hnd. simpl in Hnd.
  apply list.NoDup_app in Hnd as (_ & Hbefore & Hnd).
  pose proof (NoDup_cons_1_1 _ _ Hnd) as Hafter.
  assert (p ∉ before.*1) as Hp.
  { intros Hin. apply (Hbefore p Hin). left. }
  rewrite !update_loop_app.
  pose proof (update_loop_untouched np_mean trainer_steps trainer_max_steps
                trainer_reward_buffer before (false, false) p w Hp) as Hw1.
  destruct (update_loop _ _ _ _ before (false, false) w) as [[flags1|e] w1];
    simpl in Hw1; [| split; [assumption | reflexivity]].
  rewrite update_loop_cons.
  rewrite (update_parameter_skip _ _ _ _ flags1 p settings w1 i lesson);
    [| destruct Hw1 as [-> _]; assumption | assumption | assumption].
  split; [| reflexivity].
  eapply untouched_trans; [eassumption |].
  apply update_loop_untouched. exact Hafter.
Qed.

Lemma update_lessons_skips_without_criteria_witness :
  untouched "wind" Examples.fresh_pair
    (snd (update_lessons sequential_mean Examples.steps Examples.max_steps
            Examples.rewards Examples.fresh_pair))
  /\ update_lessons sequential_mean Examples.steps Examples.max_steps
       Examples.rewards Examples.fresh_pair
     = update_loop sequential_mean Examples.steps Examples.max_steps
         Examples.rewards [("gravity", Examples.two_lessons)] (false, false)
         Examples.fresh_pair.
Proof.
  apply (update_lessons_skips_without_criteria sequential_mean Examples.steps
           Examples.max_steps Examples.rewards Examples.fresh_pair
           [("gravity", Examples.two_lessons)] [] "wind" Examples.single_lesson 0
           {| sampler := 2%nat; completion_criteria := None; name := "calm" |}).
  - reflexivity.
  - apply (bool_decide_unpack _). vm_compute. exact I.
  - reflexivity.
  - reflexivity.
  - reflexivity.
Defined.

(** C4, as the code has it: when [update_lessons] is called with a
    maximum-step count of zero for the behavior of a completion criteria on
    the current lesson of some parameter, the call raises an exception. At
    that parameter the exception comes before the evaluator is called: the
    parameter's smoothing value and lesson index are left as they were, and
    the exception is [ZeroDivisionError] once the step count of the behavior
    is there and converts to a float. No ratio is compared against the
    threshold. *)
Theorem update_lessons_zero_max_steps
    (np_mean : list float -> float) (trainer_steps trainer_max_steps : gmap string Z)
    (trainer_reward_buffer : gmap string (list float)) (w : world)
    (p : string) (settings : EnvironmentParameterSettings) (i : Z)
    (lesson : Lesson) (criteria : CompletionCriteriaSettings) :
  NoDup ((_dict_settings (self w)).*1) ->
  (p, settings) ∈ _dict_settings (self w) ->
  get_parameter_state (status w) p = Some i ->
  getitem (lessons settings) i = Return lesson ->
  completion_criteria lesson = Some criteria ->
  trainer_max_steps !! behavior criteria = Some 0 ->
  let r := update_lessons np_mean trainer_steps trainer_max_steps
             trainer_reward_buffer w in
  is_raise (fst r) = true
  /\ untouched p w (snd r)
  /\ (forall flags n,
         trainer_steps !! behavior criteria = Some n ->
         is_raise (float_of_int n) = false ->
         update_parameter np_mean trainer_steps trainer_max_steps
           trainer_reward_buffer flags (p, settings) w
         = (Raise ZeroDivisionError, w)).
Proof.
  intros Hnd Hin Hget Hitem Hcrit Hmax. unfold update_lessons. split; [| split].
  - apply list_elem_of_split in Hin as (before & after & Hsettings).
    rewrite Hsettings in *. clear Hsettings.
    rewrite fmap_app, fmap_cons in Hnd. simpl in Hnd.
    apply list.NoDup_app in Hnd as (_ & Hbefore & _).
    assert (p ∉ before.*1) as Hp.
    { intros Hp. apply (Hbefore p Hp). left. }
    rewrite update_loop_app.
    pose proof (update_loop_untouched np_mean trainer_steps trainer_max_steps
                  trainer_reward_buffer before (false, false) p w Hp) as Hw1.
    destruct (update_loop _ _ _ _ before (false, false) w) as [[flags1|e] w1];
      simpl in Hw1; [| reflexivity].
    rewrite update_loop_cons.
    assert (get_parameter_state (status w1) p = Some i) as Hget1
      by (destruct Hw1 as [-> _]; assumption).
    destruct (update_parameter_zero_max_steps np_mean trainer_steps
                trainer_max_steps trainer_reward_buffer flags1 p settings w1 i
                lesson criteria Hget1 Hitem Hcrit Hmax) as (e & -> & _).
    reflexivity.
  - apply list_elem_of_split in Hin as (before & after & Hsettings).
    rewrite Hsettings in *. clear Hsettings.
    rewrite fmap_app, fmap_cons in Hnd. simpl in Hnd.
    apply list.NoDup_app in Hnd as (_ & Hbefore & _).
    assert (p ∉ before.*1) as Hp.
    { intros Hp. apply (Hbefore p Hp). left. }
    rewrite update_loop_app.
    pose proof (update_loop_untouched np_mean trainer_steps trainer_max_steps
                  trainer_reward_buffer before (false, false) p w Hp) as Hw1.
    destruct (update_loop _ _ _ _ before (false, false) w) as [[flags1|e] w1];
      simpl in Hw1; [| assumption].
    rewrite update_loop_cons.
    assert (get_parameter_state (status w1) p = Some i) as Hget1
      by (destruct Hw1 as [-> _]; assumption).
    destruct (update_parameter_zero_max_steps np_mean trainer_steps
                trainer_max_steps trainer_reward_buffer flags1 p settings w1 i
                lesson criteria Hget1 Hitem Hcrit Hmax) as (e & -> & _).
    assumption.
  - intros flags n Hn Hfloat.
    destruct (update_parameter_zero_max_steps np_mean trainer_steps
                trainer_max_steps trainer_reward_buffer flags p settings w i
                lesson criteria Hget Hitem Hcrit Hmax) as (e & -> & He).
    now rewrite (He n Hn Hfloat).
Qed.

Lemma update_lessons_zero_max_steps_witness :
  is_raise (fst (update_lessons sequential_mean Examples.steps
                   Examples.zero_max_steps Examples.rewards Examples.fresh_pair))
  = true
  /\ update_parameter sequential_mean Examples.steps Examples.zero_max_steps
       Examples.rewards (false, false) ("gravity", Examples.two_lessons)
       Examples.fresh_pair
     = (Raise ZeroDivisionError, Examples.fresh_pair).
Proof.
  destruct (update_lessons_zero_max_steps sequential_mean Examples.steps
              Examples.zero_max_steps Examples.rewards Examples.fresh_pair
              "gravity" Examples.two_lessons 0
              {| sampler := 0%nat; completion_criteria := Some Examples.progress_half;
                 name := "light" |}
              Examples.progress_half) as (Hraise & _ & Hexn).
  - apply (bool_decide_unpack _). vm_compute. exact I.
  - vm_compute. left.
  - reflexivity.
  - reflexivity.
  - reflexivity.
  - reflexivity.
  - split; [exact Hraise |].
    apply (Hexn (false, false) 9); reflexivity.
Defined.

(** C4 as stated fails: with a maximum-step count of -10 for the behavior
    of the active completion criteria the call returns, having compared the
    ratio -0.9 against the threshold. *)
Lemma update_lessons_negative_max_steps_returns :
  Examples.negative_max_steps !! "walker" = Some (-10)
  /\ float_of_int 9 = Return 9%float
  /\ float_of_int (-10) = Return (-10)%float
  /\ truediv 9 (-10) = Return (-0.9)%float
  /\ update_lessons sequential_mean Examples.steps Examples.negative_max_steps
       Examples.rewards Examples.fresh
     = (Return (false, false), Examples.fresh).
Proof. repeat split; vm_compute; reflexivity. Qed.

(** ** The constructor *)

Section InitFacts.

Variable restore : bool.

(** The lesson index of a parameter is reset by the constructor. *)
#[local] Abbreviation resets g q := (restore = false \/ saved_state g !! q = None).

Lemma init_lesson_reset g q :
  resets g q -> init_lesson restore g q = set_parameter_state g q 0.
Proof.
  unfold init_lesson, get_parameter_state. intros [-> | ->].
  - now rewrite orb_true_r.
  - reflexivity.
Qed.

Lemma init_lesson_keep g q :
  ~ resets g q -> init_lesson restore g q = g.
Proof.
  unfold init_lesson, get_parameter_state. intros Hkeep.
  destruct restore; [| tauto].
  destruct (saved_state g !! q); [reflexivity | tauto].
Qed.

Lemma init_lessons_spec (names : list string) :
  forall g : GlobalTrainingStatus,
  exists new : list (string * Z),
    set_calls (fold_left (init_lesson restore) names g) = new ++ set_calls g
    /\ (forall q, q ∈ names -> resets g q ->
          saved_state (fold_left (init_lesson restore) names g) !! q = Some 0
          /\ (q, 0) ∈ new)
    /\ (forall q, ~ (q ∈ names /\ resets g q) ->
          saved_state (fold_left (init_lesson restore) names g) !! q
          = saved_state g !! q
          /\ q ∉ new.*1).
Proof.
  induction names as [|n names IH]; intros g; simpl.
  - exists []. split; [reflexivity |]. split.
    + intros q Hq. now apply elem_of_nil in Hq.
    + intros q _. split; [reflexivity | apply not_elem_of_nil].
  - destruct (IH (init_lesson restore g n)) as (new1 & Hcalls & Hreset & Hkeep).
    destruct (decide (resets g n)) as [Rn|Rn].
    + rewrite (init_lesson_reset g n Rn) in *.
      assert (forall q, q <> n ->
                saved_state (set_parameter_state g n 0) !! q = saved_state g !! q)
        as Hother by (intros q Hq; simpl; now rewrite lookup_insert_ne).
      exists (new1 ++ [(n, 0)]). split; [| split].
      * rewrite Hcalls. simpl. now rewrite <- app_assoc.
      * intros q Hq Rq. destruct (decide (q = n)) as [->|Hne].
        -- destruct (decide (n ∈ names
                             /\ (restore = false
                                 \/ saved_state (set_parameter_state g n 0) !! n = None)))
             as [[Hin R1]|Hno].
           ++ destruct (Hreset n Hin R1) as [-> Hnew].
              split; [reflexivity |]. apply elem_of_app. now left.
           ++ destruct (Hkeep n Hno) as [-> _]. simpl.
              rewrite lookup_insert_eq. split; [reflexivity |].
              apply elem_of_app. right. left.
        -- apply elem_of_cons in Hq as [Hq|Hq]; [contradiction |].
           destruct (Hreset q Hq) as [-> Hnew].
           { rewrite (Hother q Hne). assumption. }
           split; [reflexivity |]. apply elem_of_app. now left.
      * intros q Hq.
        assert (q <> n) as Hne.
        { intros ->. apply Hq. split; [left | assumption]. }
        destruct (Hkeep q) as [-> Hnew].
        { rewrite (Hother q Hne). intros [Hin Rq]. apply Hq.
          split; [now right | assumption]. }
        split; [now apply Hother |].
        rewrite fmap_app, not_elem_of_app. split; [assumption |].
        simpl. rewrite not_elem_of_cons. split; [assumption | apply not_elem_of_nil].
    + rewrite (init_lesson_keep g n Rn) in *.
      exists new1. split; [assumption |]. split.
      * intros q Hq Rq. apply Hreset; [| assumption].
        apply elem_of_cons in Hq as [->|Hq]; [contradiction | assumption].
      * intros q Hq. apply Hkeep. intros [Hin Rq]. apply Hq.
        split; [now right | assumption].
Qed.

End InitFacts.

(** C6: at construction, for every parameter, when [restore] is false or
    the status holds no lesson index for the parameter, the set operation of
    the status is called with 0 and the lesson index is 0 afterwards; when
    [restore] is true and the status holds a lesson index (2, say), the
    status is not written for the parameter and the manager reports that
    lesson index as the current one. *)
Theorem init_lesson_index
    (settings : list (string * EnvironmentParameterSettings)) (run_seed : Z)
    (restore : bool) (g : GlobalTrainingStatus) (h : heap) (p : string) :
  p ∈ (settings.*1) ->
  let w := fst (__init__ settings run_seed restore g h) in
  exists new : list (string * Z),
    set_calls (status w) = new ++ set_calls g
    /\ (restore = false \/ get_parameter_state g p = None ->
        get_parameter_state (status w) p = Some 0 /\ (p, 0) ∈ new)
    /\ (forall v, restore = true -> get_parameter_state g p = Some v ->
          get_parameter_state (status w) p = Some v
          /\ (p ∉ new.*1)
          /\ (p, Some v) ∈ get_current_lesson_number w).
Proof.
  intros Hp. simpl.
  destruct (init_lessons_spec restore (settings.*1) g) as (new & Hcalls & Hreset & Hkeep).
  exists new. split; [assumption |]. split.
  - intros R. apply Hreset; assumption.
  - intros v Hrestore Hv. unfold get_parameter_state in *.
    destruct (Hkeep p) as [Hsame Hnew].
    { intros [_ [R|R]]; congruence. }
    rewrite Hsame. split; [assumption |]. split; [assumption |].
    unfold get_current_lesson_number, get_parameter_state. simpl.
    apply list_elem_of_fmap. exists p. split; [| assumption].
    now rewrite Hsame, Hv.
Qed.

Lemma init_lesson_index_witness :
  let restored :=
    fst (__init__ [("gravity", Examples.three_lessons)] 0 true
           Examples.saved_at_2 Examples.no_seed) in
  let reset :=
    fst (__init__ [("gravity", Examples.three_lessons)] 0 false
           Examples.saved_at_2 Examples.no_seed) in
  (get_parameter_state (status restored) "gravity" = Some 2
   /\ ("gravity", Some 2) ∈ get_current_lesson_number restored)
  /\ get_parameter_state (status reset) "gravity" = Some 0.
Proof.
  split.
  - destruct (init_lesson_index [("gravity", Examples.three_lessons)] 0 true
                Examples.saved_at_2 Examples.no_seed "gravity")
      as (new & _ & _ & Hkeep); [vm_compute; left |].
    destruct (Hkeep 2) as (Hget & _ & Hcurrent); [reflexivity | reflexivity |].
    split; assumption.
  - destruct (init_lesson_index [("gravity", Examples.three_lessons)] 0 false
                Examples.saved_at_2 Examples.no_seed "gravity")
      as (new & _ & Hreset & _); [vm_compute; left |].
    apply Hreset. left. reflexivity.
Defined.

(** C5: the seeds are assigned in enumeration order, parameters in the order
    of the settings and lessons in sequence order. A lesson whose sampler
    has the sentinel seed -1 gets [run_seed + k], where [k] is the number of
    lessons before it that had the sentinel seed, so that the first one gets
    [run_seed]; two such lessons get different seeds; a lesson whose
    sampler has another seed keeps its sampler as it is. (Each lesson has a
    sampler of its own.) *)
Theorem set_sampler_seeds_spec (m : EnvironmentParameterManager) (run_seed : Z)
    (h : heap) :
  NoDup (sampler <$> lessons_in_order m) ->
  let h' := _set_sampler_seeds m run_seed h in
  (forall i lesson,
      lessons_in_order m !! i = Some lesson ->
      seed (h (sampler lesson)) = -1 ->
      seed (h' (sampler lesson)) = run_seed + Z.of_nat (sentinels_before h m i))
  /\ (forall i j lesson_i lesson_j,
         i <> j ->
         lessons_in_order m !! i = Some lesson_i ->
         lessons_in_order m !! j = Some lesson_j ->
         seed (h (sampler lesson_i)) = -1 ->
         seed (h (sampler lesson_j)) = -1 ->
         seed (h' (sampler lesson_i)) <> seed (h' (sampler lesson_j)))
  /\ (forall lesson,
         lesson ∈ lessons_in_order m ->
         seed (h (sampler lesson)) <> -1 ->
         h' (sampler lesson) = h (sampler lesson)).
Proof.
  intros Hnd. simpl. rewrite set_sampler_seeds_flat.
  destruct (seed_lessons_spec run_seed (lessons_in_order m) 0 h Hnd) as [_ Hat].
  assert (forall i lesson,
             lessons_in_order m !! i = Some lesson ->
             seed (h (sampler lesson)) = -1 ->
             seed (snd (fold_left (seed_lesson run_seed) (lessons_in_order m) (0, h))
                     (sampler lesson))
             = run_seed + Z.of_nat (sentinels_before h m i)) as Hassigned.
  { intros i lesson Hi Hs. specialize (Hat i lesson Hi).
    rewrite decide_True in Hat by assumption.
    rewrite Hat. unfold sentinels_before. lia. }
  split; [exact Hassigned |]. split.
  - intros i j li lj Hij Hi Hj Hsi Hsj.
    rewrite (Hassigned i li Hi Hsi), (Hassigned j lj Hj Hsj).
    unfold sentinels_before.
    destruct (Nat.lt_total i j) as [Hlt|[Heq|Hlt]]; [| contradiction |].
    + pose proof (filter_take_lt (fun x => seed (h (sampler x)) = -1)
                    (lessons_in_order m) i j li Hlt Hi Hsi). lia.
    + pose proof (filter_take_lt (fun x => seed (h (sampler x)) = -1)
                    (lessons_in_order m) j i lj Hlt Hj Hsj). lia.
  - intros lesson Hin Hs.
    apply list_elem_of_lookup_1 in Hin as [i Hi].
    specialize (Hat i lesson Hi).
    now rewrite decide_False in Hat by assumption.
Qed.

Lemma set_sampler_seeds_spec_witness :
  let h' := _set_sampler_seeds Examples.seeded_pair 40 Examples.one_seed in
  seed (h' 0%nat) = 40 /\ seed (h' 1%nat) = 7 /\ seed (h' 2%nat) = 41.
Proof.
  destruct (set_sampler_seeds_spec Examples.seeded_pair 40 Examples.one_seed)
    as (Hassigned & _ & Hkept).
  - apply (bool_decide_unpack _). vm_compute. exact I.
  - split; [| split].
    + apply (Hassigned 0%nat
               {| sampler := 0%nat; completion_criteria := Some Examples.progress_half;
                  name := "light" |}); reflexivity.
    + apply (f_equal seed
               (Hkept {| sampler := 1%nat; completion_criteria := None;
                         name := "heavy" |}
                  ltac:(vm_compute; right; left) ltac:(discriminate))).
    + apply (Hassigned 2%nat
               {| sampler := 2%nat; completion_criteria := None; name := "calm" |});
        reflexivity.
Defined.

(** A sampler shared by two lessons is seeded once: the second lesson finds
    the seed of the first. *)
Example set_sampler_seeds_shared :
  let m := {| _dict_settings :=
                [("gravity",
                  {| lessons :=
                       [ {| sampler := 0%nat; completion_criteria := None;
                            name := "light" |};
                         {| sampler := 0%nat; completion_criteria := None;
                            name := "heavy" |};
                         {| sampler := 1%nat; completion_criteria := None;
                            name := "last" |} ] |})];
              _smoothing_values := ∅ |} in
  let h' := _set_sampler_seeds m 40 Examples.no_seed in
  seed (h' 0%nat) = 40 /\ seed (h' 1%nat) = 41.
Proof. split; reflexivity. Qed.

(** ** The lesson index at the last lesson *)

(** C1 does not hold of the code. The curriculum has two lessons, each
    with a completion criteria that the trainer meets. The first call moves
    the parameter from lesson 0 to lesson 1. The second call finds the last
    lesson, passes the check [len(settings.lessons) > lesson_num], stores
    the lesson index 2, which is no index of the two lessons, and raises
    [IndexError] while building the message for the log. Every later call
    raises [IndexError] at the lookup of the current lesson. *)
Theorem update_lessons_past_last_lesson :
  let call :=
    update_lessons sequential_mean Examples.steps Examples.max_steps
      Examples.rewards in
  let w0 := Examples.fresh in
  let w1 := snd (call w0) in
  let w2 := snd (call w1) in
  get_parameter_state (status w0) "gravity" = Some 0
  /\ fst (call w0) = Return (true, false)
  /\ get_parameter_state (status w1) "gravity" = Some 1
  /\ fst (call w1) = Raise IndexError
  /\ get_parameter_state (status w2) "gravity" = Some 2
  /\ length (lessons Examples.two_lessons) = 2%nat
  /\ getitem (lessons Examples.two_lessons) 2 = Raise IndexError
  /\ call w2 = (Raise IndexError, w2).
Proof. repeat split; vm_compute; reflexivity. Qed.

(** * Further properties of the manager *)

(** ** The evaluator *)

(** X1: the evaluator hands the smoothing value back as it received it
    whenever the criteria is measured by PROGRESS or has smoothing switched
    off, whatever the progress and the reward buffer. *)
Theorem need_increment_keeps_smoothing
    (np_mean : list float -> float) (c : CompletionCriteriaSettings)
    (progress : float) (reward_buffer : list float) (smoothing : float) :
  measure c = PROGRESS \/ signal_smoothing c = false ->
  snd (_need_increment np_mean c progress reward_buffer smoothing) = smoothing.
Proof.
  intros Hcase. unfold _need_increment.
  destruct (Z.of_nat (length reward_buffer) <? min_lesson_length c); [reflexivity |].
  destruct (measure c) eqn:Hm; simpl.
  - destruct (threshold c <? progress)%float; reflexivity.
  - destruct Hcase as [|Hs]; [discriminate |]. rewrite Hs.
    destruct (Z.of_nat (length reward_buffer) <? 1); [reflexivity |].
    destruct (is_nan (np_mean reward_buffer)); [reflexivity |].
    destruct (threshold c <? np_mean reward_buffer)%float; reflexivity.
Qed.

Lemma need_increment_keeps_smoothing_witness :
  snd (_need_increment sequential_mean Examples.progress_half 0.75 [0; 1]%float 0.125)
  = 0.125%float.
Proof. apply need_increment_keeps_smoothing. left. reflexivity. Defined.

(** X2: what an increment tells. When the evaluator signals an increment,
    the reward buffer has at least [min_lesson_length] values; for a
    PROGRESS criteria the progress is strictly above the threshold and the
    smoothing value is unchanged; for a REWARD criteria the buffer is not
    empty, its mean is a number, and the measure compared with the
    threshold, the mean or its smoothing, is strictly above it. *)
Theorem need_increment_true_inv
    (np_mean : list float -> float) (c : CompletionCriteriaSettings)
    (progress : float) (reward_buffer : list float) (smoothing smoothing' : float) :
  _need_increment np_mean c progress reward_buffer smoothing = (true, smoothing') ->
  min_lesson_length c <= Z.of_nat (length reward_buffer)
  /\ match measure c with
     | PROGRESS =>
         (threshold c <? progress)%float = true /\ smoothing' = smoothing
     | REWARD =>
         reward_buffer <> []
         /\ is_nan (np_mean reward_buffer) = false
         /\ (if signal_smoothing c then
               smoothing' = (0.25 * smoothing + 0.75 * np_mean reward_buffer)%float
               /\ (threshold c <? smoothing')%float = true
             else
               smoothing' = smoothing
               /\ (threshold c <? np_mean reward_buffer)%float = true)
     end.
Proof.
  unfold _need_increment. intros Heval.
  destruct (Z.ltb_spec (Z.of_nat (length reward_buffer)) (min_lesson_length c));
    [discriminate |].
  split; [assumption |].
  destruct (measure c); simpl in Heval.
  - destruct (threshold c <? progress)%float; [| discriminate].
    injection Heval as <-. split; reflexivity.
  - destruct (Z.ltb_spec (Z.of_nat (length reward_buffer)) 1); [discriminate |].
    split; [intros ->; simpl in *; lia |].
    destruct (is_nan (np_mean reward_buffer)); [discriminate |].
    split; [reflexivity |].
    destruct (signal_smoothing c); simpl in Heval.
    + destruct (threshold c <? 0.25 * smoothing + 0.75 * np_mean reward_buffer)%float
        eqn:Hcmp; [| discriminate].
      injection Heval as <-. split; [reflexivity | assumption].
    + destruct (threshold c <? np_mean reward_buffer)%float eqn:Hcmp;
        [| discriminate].
      injection Heval as <-. split; reflexivity.
Qed.

Lemma need_increment_true_inv_witness :
  4 <= Z.of_nat (length [1; 1; 1; 1]%float)
  /\ [1; 1; 1; 1]%float <> []
  /\ (0.9 <? 0.9375)%float = true.
Proof.
  destruct (need_increment_true_inv sequential_mean Examples.reward_smoothed 0.3
              [1; 1; 1; 1]%float 0.75 0.9375) as (Hlen & Hne & _ & _ & Hcmp);
    [reflexivity |].
  split; [exact Hlen |]. split; [exact Hne | exact Hcmp].
Defined.

(** A float that is not a number has no other specification. *)
Lemma Prim2SF_nan (x : float) : is_nan x = true <-> Prim2SF x = S754_nan.
Proof.
  unfold is_nan. rewrite FloatAxioms.eqb_spec. unfold SFeqb. split.
  - destruct (Prim2SF x) as [s|s| |s m e]; simpl; try reflexivity.
    + destruct s; discriminate.
    + destruct s; discriminate.
    + destruct s; rewrite Z.compare_refl, Pos.compare_cont_refl; discriminate.
  - intros ->. reflexivity.
Qed.

Lemma is_nan_mul_r (x y : float) : is_nan y = true -> is_nan (x * y) = true.
Proof.
  rewrite !Prim2SF_nan, FloatAxioms.mul_spec. intros ->.
  unfold SF64mul, SFmul. destruct (Prim2SF x); reflexivity.
Qed.

Lemma is_nan_add_l (x y : float) : is_nan x = true -> is_nan (x + y) = true.
Proof.
  rewrite !Prim2SF_nan, FloatAxioms.add_spec. intros ->. reflexivity.
Qed.

Lemma ltb_nan_r (x y : float) : is_nan y = true -> (x <? y)%float = false.
Proof.
  rewrite Prim2SF_nan, FloatAxioms.ltb_spec. intros ->.
  unfold SFltb, SFcompare. destruct (Prim2SF x); reflexivity.
Qed.

(** X3: a smoothing value that is not a number is never left. For a REWARD
    criteria with smoothing, once the buffer passes the length gate and its
    mean is a number, a prior smoothing value that is not a number gives no
    increment and a new smoothing value that is not a number either. *)
Theorem need_increment_nan_smoothing
    (np_mean : list float -> float) (c : CompletionCriteriaSettings)
    (progress : float) (reward_buffer : list float) (smoothing : float) :
  measure c = REWARD -> signal_smoothing c = true ->
  min_lesson_length c <= Z.of_nat (length reward_buffer) ->
  reward_buffer <> [] ->
  is_nan (np_mean reward_buffer) = false ->
  is_nan smoothing = true ->
  fst (_need_increment np_mean c progress reward_buffer smoothing) = false
  /\ is_nan (snd (_need_increment np_mean c progress reward_buffer smoothing)) = true.
Proof.
  intros Hm Hs Hlen Hne Hmean Hnan.
  rewrite need_increment_REWARD by assumption. simpl. rewrite Hmean, Hs.
  assert (is_nan (0.25 * smoothing + 0.75 * np_mean reward_buffer) = true) as Hnew
    by (apply is_nan_add_l, is_nan_mul_r, Hnan).
  simpl. split; [now apply ltb_nan_r | assumption].
Qed.

Lemma need_increment_nan_smoothing_witness :
  fst (_need_increment sequential_mean Examples.reward_smoothed 0.3
         [1; 1; 1; 1]%float nan) = false
  /\ is_nan (snd (_need_increment sequential_mean Examples.reward_smoothed 0.3
                    [1; 1; 1; 1]%float nan)) = true.
Proof.
  apply need_increment_nan_smoothing;
    [reflexivity | reflexivity | simpl; lia | discriminate | reflexivity | reflexivity].
Defined.

(** ** The minimum size of the reward buffer, again *)

Lemma maximum_ge (l : list Z) (x : Z) :
  x ∈ l -> exists v, maximum l = Some v /\ x <= v.
Proof.
  induction l as [|y l IH]; intros Hin; [now apply elem_of_nil in Hin |].
  simpl. apply elem_of_cons in Hin as [->|Hin].
  - destruct (maximum l) as [v|]; eexists; (split; [reflexivity | lia]).
  - destruct (IH Hin) as (v & -> & Hv). eexists; split; [reflexivity | lia].
Qed.

Lemma lessons_in_order_elem (m : EnvironmentParameterManager) (p : string)
    (settings : EnvironmentParameterSettings) (lesson : Lesson) :
  (p, settings) ∈ _dict_settings m -> lesson ∈ lessons settings ->
  lesson ∈ lessons_in_order m.
Proof.
  intros Hitem Hlesson. unfold lessons_in_order.
  apply list_elem_of_In, in_flat_map. exists (p, settings).
  split; apply list_elem_of_In; assumption.
Qed.

Lemma lessons_in_order_inv (m : EnvironmentParameterManager) (lesson : Lesson) :
  lesson ∈ lessons_in_order m ->
  exists p settings, (p, settings) ∈ _dict_settings m /\ lesson ∈ lessons settings.
Proof.
  unfold lessons_in_order. intros Hin.
  apply list_elem_of_In, in_flat_map in Hin as ([p settings] & Hitem & Hlesson).
  exists p, settings. split; apply list_elem_of_In; assumption.
Qed.

Lemma minimum_reward_buffer_size_ge (m : EnvironmentParameterManager)
    (behavior_name : string) :
  1 <= get_minimum_reward_buffer_size m behavior_name
  /\ (forall p settings lesson c,
         (p, settings) ∈ _dict_settings m ->
         lesson ∈ lessons settings ->
         completion_criteria lesson = Some c ->
         behavior c = behavior_name ->
         min_lesson_length c <= get_minimum_reward_buffer_size m behavior_name).
Proof.
  rewrite minimum_reward_buffer_size_fold, fold_left_max. split.
  - destruct (maximum _); lia.
  - intros p settings lesson c Hitem Hlesson Hc Hb.
    destruct (maximum_ge (matching_lengths m behavior_name) (min_lesson_length c))
      as (v & -> & Hv); [| lia].
    unfold matching_lengths. apply list_elem_of_omap. exists lesson. split.
    + eapply lessons_in_order_elem; eassumption.
    + unfold targets. rewrite Hc, bool_decide_eq_true_2 by assumption. reflexivity.
Qed.

(** X4: the size returned by [get_minimum_reward_buffer_size] is at least 1
    and at least the [min_lesson_length] of every lesson, of any parameter,
    whose completion criteria targets the behavior. *)
Theorem minimum_reward_buffer_size_bounds (m : EnvironmentParameterManager)
    (behavior_name : string) :
  1 <= get_minimum_reward_buffer_size m behavior_name
  /\ (forall p settings lesson c,
         (p, settings) ∈ _dict_settings m ->
         lesson ∈ lessons settings ->
         completion_criteria lesson = Some c ->
         behavior c = behavior_name ->
         min_lesson_length c <= get_minimum_reward_buffer_size m behavior_name).
Proof. apply minimum_reward_buffer_size_ge. Qed.

Lemma minimum_reward_buffer_size_bounds_witness :
  1 <= get_minimum_reward_buffer_size Examples.seeded_pair "walker"
  /\ min_lesson_length Examples.progress_half
     <= get_minimum_reward_buffer_size Examples.seeded_pair "walker".
Proof.
  destruct (minimum_reward_buffer_size_bounds Examples.seeded_pair "walker")
    as [Hone Hall].
  split; [exact Hone |].
  apply (Hall "gravity"
           {| lessons :=
                [ {| sampler := 0%nat;
                     completion_criteria := Some Examples.progress_half;
                     name := "light" |};
                  {| sampler := 1%nat; completion_criteria := None;
                     name := "heavy" |} ] |}
           {| sampler := 0%nat; completion_criteria := Some Examples.progress_half;
              name := "light" |});
    [vm_compute; left | vm_compute; left | reflexivity | reflexivity].
Defined.

(** X5: a reward buffer with at least
    [get_minimum_reward_buffer_size(behavior)] values is never stopped by
    the length gate nor by the empty-buffer test of the evaluator, for any
    criteria of the manager that targets the behavior: a PROGRESS criteria
    is decided by the progress alone, a REWARD criteria by the mean. *)
Theorem minimum_reward_buffer_size_passes_gate
    (np_mean : list float -> float) (m : EnvironmentParameterManager)
    (p : string) (settings : EnvironmentParameterSettings) (lesson : Lesson)
    (c : CompletionCriteriaSettings) (progress : float)
    (reward_buffer : list float) (smoothing : float) :
  (p, settings) ∈ _dict_settings m ->
  lesson ∈ lessons settings ->
  completion_criteria lesson = Some c ->
  get_minimum_reward_buffer_size m (behavior c) <= Z.of_nat (length reward_buffer) ->
  _need_increment np_mean c progress reward_buffer smoothing
  = match measure c with
    | PROGRESS => ((threshold c <? progress)%float, smoothing)
    | REWARD =>
        let mean := np_mean reward_buffer in
        if is_nan mean then (false, smoothing)
        else if signal_smoothing c then
          let measure := (0.25 * smoothing + 0.75 * mean)%float in
          ((threshold c <? measure)%float, measure)
        else ((threshold c <? mean)%float, smoothing)
    end.
Proof.
  intros Hitem Hlesson Hc Hlen.
  destruct (minimum_reward_buffer_size_ge m (behavior c)) as [Hone Hall].
  pose proof (Hall p settings lesson c Hitem Hlesson Hc eq_refl) as Hmin.
  destruct (measure c) eqn:Hm.
  - apply need_increment_PROGRESS; [assumption | lia].
  - apply need_increment_REWARD; [assumption | lia |].
    intros ->. simpl in Hlen. lia.
Qed.

Lemma minimum_reward_buffer_size_passes_gate_witness :
  _need_increment sequential_mean Examples.progress_half 0.75 [0; 1]%float 0.125
  = (true, 0.125%float).
Proof.
  apply (minimum_reward_buffer_size_passes_gate sequential_mean Examples.seeded_pair
           "gravity" Examples.light_then_heavy Examples.light Examples.progress_half
           0.75 [0; 1]%float 0.125);
    [vm_compute; left | vm_compute; left | reflexivity | vm_compute; discriminate].
Defined.

(** ** Seeding the samplers, again *)

(** What a pass over lessons does to a sampler: nothing, or a seed replaces
    the sentinel of the sampler of a lesson. *)
Lemma seed_lessons_changes (run_seed : Z) (ls : list Lesson) :
  forall (offset : Z) (h : heap),
    let r := fold_left (seed_lesson run_seed) ls (offset, h) in
    offset <= fst r <= offset + Z.of_nat (length ls)
    /\ (forall l,
           snd r l = h l
           \/ (seed (h l) = -1 /\ l ∈ sampler <$> ls
               /\ run_seed + offset <= seed (snd r l) < run_seed + fst r)).
Proof.
  induction ls as [|a ls IH]; intros offset h; simpl.
  - split; [lia | intros l; now left].
  - set (acc := if seed (h (sampler a)) =? -1 then _ else _).
    destruct (Z.eqb_spec (seed (h (sampler a))) (-1)) as [Ea|Ea].
    + subst acc.
      specialize (IH (offset + 1)
                    (<[sampler a := {| seed := run_seed + offset |}]> h)).
      simpl in IH. destruct IH as [Hoff Hl].
      set (r := fold_left _ ls _) in *. split; [lia |].
      intros l. destruct (decide (l = sampler a)) as [->|Hne].
      * right. split; [assumption |]. split; [left |].
        destruct (Hl (sampler a)) as [->|(_ & _ & Hb)].
        -- rewrite fn_lookup_insert. simpl. lia.
        -- lia.
      * destruct (Hl l) as [Hsame|(Hs & Hin & Hb)].
        -- left. rewrite Hsame. now apply fn_lookup_insert_ne.
        -- rewrite fn_lookup_insert_ne in Hs by congruence.
           right. split; [assumption |]. split; [now right | lia].
    + subst acc. specialize (IH offset h). simpl in IH. destruct IH as [Hoff Hl].
      set (r := fold_left _ ls _) in *. split; [lia |].
      intros l. destruct (Hl l) as [Hsame|(Hs & Hin & Hb)]; [now left |].
      right. split; [assumption |]. split; [now right | lia].
Qed.

(** With a seed that is not negative no lesson is left with the sentinel. *)
Lemma seed_lessons_no_sentinel (run_seed : Z) (ls : list Lesson) :
  forall (offset : Z) (h : heap),
    0 <= run_seed + offset ->
    forall lesson, lesson ∈ ls ->
      seed (snd (fold_left (seed_lesson run_seed) ls (offset, h)) (sampler lesson))
      <> -1.
Proof.
  induction ls as [|a ls IH]; intros offset h Hpos lesson Hin;
    [now apply elem_of_nil in Hin |].
  simpl. set (acc := if seed (h (sampler a)) =? -1 then _ else _).
  assert (exists offset1 h1, acc = (offset1, h1) /\ offset <= offset1
                             /\ seed (h1 (sampler a)) <> -1)
    as (offset1 & h1 & -> & Hoff & Hseeded).
  { subst acc. destruct (Z.eqb_spec (seed (h (sampler a))) (-1)).
    - eexists _, _. split; [reflexivity |]. split; [lia |].
      rewrite fn_lookup_insert. simpl. lia.
    - eexists _, _. split; [reflexivity |]. split; [lia | assumption]. }
  apply elem_of_cons in Hin as [->|Hin].
  - destruct (seed_lessons_changes run_seed ls offset1 h1) as [_ Hl].
    destruct (Hl (sampler a)) as [->|(Hs & _)]; [assumption | contradiction].
  - apply IH; [lia | assumption].
Qed.

(** A pass over lessons that all have a seed writes nothing. *)
Lemma seed_lessons_id (run_seed : Z) (ls : list Lesson) (offset : Z) (h : heap) :
  (forall lesson, lesson ∈ ls -> seed (h (sampler lesson)) <> -1) ->
  fold_left (seed_lesson run_seed) ls (offset, h) = (offset, h).
Proof.
  induction ls as [|a ls IH]; intros Hall; simpl; [reflexivity |].
  destruct (Z.eqb_spec (seed (h (sampler a))) (-1)) as [E|_].
  - exfalso. apply (Hall a); [left | assumption].
  - apply IH. intros lesson Hin. apply Hall. now right.
Qed.

(** X6: seeding changes a sampler only to replace the sentinel seed of the
    sampler of a lesson, and the seed it writes is one of
    [run_seed .. run_seed + n - 1] for [n] lessons: a sampler that has a
    seed, or that belongs to no lesson of the manager, is left as it is. *)
Theorem set_sampler_seeds_changes (m : EnvironmentParameterManager)
    (run_seed : Z) (h : heap) (l : loc) :
  let h' := _set_sampler_seeds m run_seed h in
  h' l = h l
  \/ (seed (h l) = -1
      /\ l ∈ sampler <$> lessons_in_order m
      /\ run_seed <= seed (h' l)
         < run_seed + Z.of_nat (length (lessons_in_order m))).
Proof.
  simpl. rewrite set_sampler_seeds_flat.
  destruct (seed_lessons_changes run_seed (lessons_in_order m) 0 h) as [Hoff Hl].
  destruct (Hl l) as [Hsame|(Hs & Hin & Hb)]; [now left |].
  right. split; [assumption |]. split; [assumption | lia].
Qed.

(** X7: seeded with a run seed that is not negative, no lesson of the
    manager is left with the sentinel seed, whether or not lessons share
    samplers. *)
Theorem set_sampler_seeds_no_sentinel (m : EnvironmentParameterManager)
    (run_seed : Z) (h : heap) (lesson : Lesson) :
  0 <= run_seed ->
  lesson ∈ lessons_in_order m ->
  seed (_set_sampler_seeds m run_seed h (sampler lesson)) <> -1.
Proof.
  intros Hpos Hin. rewrite set_sampler_seeds_flat.
  apply seed_lessons_no_sentinel; [lia | assumption].
Qed.

Lemma set_sampler_seeds_no_sentinel_witness :
  seed (_set_sampler_seeds Examples.seeded_pair 40 Examples.one_seed
          (sampler Examples.calm)) <> -1.
Proof.
  apply set_sampler_seeds_no_sentinel; [lia | vm_compute; right; right; left].
Defined.

(** X8: seeds are assigned once. After a seeding with a run seed that is
    not negative, seeding the same manager again, with any run seed, leaves
    every sampler as it is. *)
Theorem set_sampler_seeds_twice (m : EnvironmentParameterManager)
    (run_seed run_seed' : Z) (h : heap) :
  0 <= run_seed ->
  _set_sampler_seeds m run_seed' (_set_sampler_seeds m run_seed h)
  = _set_sampler_seeds m run_seed h.
Proof.
  intros Hpos.
  rewrite (set_sampler_seeds_flat m run_seed'), seed_lessons_id; [reflexivity |].
  intros lesson Hin. rewrite set_sampler_seeds_flat.
  apply seed_lessons_no_sentinel; [lia | assumption].
Qed.

Lemma set_sampler_seeds_twice_witness :
  _set_sampler_seeds Examples.seeded_pair 7
    (_set_sampler_seeds Examples.seeded_pair 40 Examples.one_seed)
  = _set_sampler_seeds Examples.seeded_pair 40 Examples.one_seed.
Proof. apply set_sampler_seeds_twice. lia. Defined.

(** ** The constructor, again *)

Lemma init_smoothing_lookup (names : list string) (d : gmap string float)
    (p : string) :
  fold_left (fun (d : gmap string float) key => <[key := 0%float]> d) names d !! p
  = if decide (p ∈ names) then Some 0%float else d !! p.
Proof.
  revert d. induction names as [|n names IH]; intros d; cbn [fold_left].
  - destruct (decide (p ∈ [])) as [Hin|_]; [| reflexivity].
    now apply elem_of_nil in Hin.
  - rewrite IH.
    destruct (decide (p ∈ names)) as [Hin|Hout],
             (decide (p ∈ n :: names)) as [Hin'|Hout']; try reflexivity.
    + exfalso. apply Hout'. now right.
    + apply elem_of_cons in Hin' as [->|Hin']; [| contradiction].
      apply lookup_insert_eq.
    + apply lookup_insert_ne. intros ->. apply Hout'. left.
Qed.

(** X9: the constructor gives every parameter of the settings the smoothing
    value 0.0 and holds a smoothing value for no other name. *)
Theorem init_smoothing_values
    (settings : list (string * EnvironmentParameterSettings)) (run_seed : Z)
    (restore : bool) (g : GlobalTrainingStatus) (h : heap) (p : string) :
  _smoothing_values (self (fst (__init__ settings run_seed restore g h))) !! p
  = if decide (p ∈ settings.*1) then Some 0%float else None.
Proof. simpl. rewrite init_smoothing_lookup, lookup_empty. reflexivity. Qed.

Lemma init_lessons_is_Some (restore : bool) (names : list string)
    (g : GlobalTrainingStatus) (p : string) :
  p ∈ names ->
  is_Some (saved_state (fold_left (init_lesson restore) names g) !! p).
Proof.
  intros Hin.
  destruct (init_lessons_spec restore names g) as (new & _ & Hreset & Hkeep).
  destruct (decide (restore = false \/ saved_state g !! p = None)) as [R|R].
  - destruct (Hreset p Hin R) as [-> _]. eauto.
  - destruct (Hkeep p) as [-> _]; [tauto |].
    destruct (saved_state g !! p); [eauto | tauto].
Qed.

(** X10: after the constructor, whatever [restore] is, the status holds a
    lesson index for every parameter of the settings; for any other name
    the status is what it was and the set operation has not been called. *)
Theorem init_status_complete
    (settings : list (string * EnvironmentParameterSettings)) (run_seed : Z)
    (restore : bool) (g : GlobalTrainingStatus) (h : heap) :
  let w := fst (__init__ settings run_seed restore g h) in
  (forall p, p ∈ settings.*1 -> is_Some (get_parameter_state (status w) p))
  /\ exists new : list (string * Z),
       set_calls (status w) = new ++ set_calls g
       /\ forall q, q ∉ settings.*1 ->
            get_parameter_state (status w) q = get_parameter_state g q
            /\ q ∉ new.*1.
Proof.
  simpl. split.
  - intros p Hin. now apply init_lessons_is_Some.
  - destruct (init_lessons_spec restore (settings.*1) g) as (new & Hcalls & _ & Hkeep).
    exists new. split; [assumption |].
    intros q Hq. apply Hkeep. tauto.
Qed.

Lemma init_status_complete_witness :
  is_Some (get_parameter_state
             (status (fst (__init__ [("gravity", Examples.three_lessons)] 0 true
                             Examples.no_status Examples.no_seed))) "gravity").
Proof.
  destruct (init_status_complete [("gravity", Examples.three_lessons)] 0 true
              Examples.no_status Examples.no_seed) as [Hall _].
  apply Hall. vm_compute. left.
Defined.

Lemma init_lessons_restore_id (names : list string) (g : GlobalTrainingStatus) :
  (forall p, p ∈ names -> is_Some (saved_state g !! p)) ->
  fold_left (init_lesson true) names g = g.
Proof.
  induction names as [|n names IH]; intros Hall; simpl; [reflexivity |].
  rewrite init_lesson_keep.
  - apply IH. intros p Hp. apply Hall. now right.
  - intros [|Hnone]; [discriminate |].
    destruct (Hall n) as [v Hv]; [left | congruence].
Qed.

(** X11: a constructor called with [restore] on a status that holds a lesson
    index for every parameter leaves the status exactly as it is: no index
    is changed and the set operation is not called. *)
Theorem init_restore_keeps_status
    (settings : list (string * EnvironmentParameterSettings)) (run_seed : Z)
    (g : GlobalTrainingStatus) (h : heap) :
  (forall p, p ∈ settings.*1 -> is_Some (get_parameter_state g p)) ->
  status (fst (__init__ settings run_seed true g h)) = g.
Proof. intros Hall. simpl. now apply init_lessons_restore_id. Qed.

Lemma init_restore_keeps_status_witness :
  status (fst (__init__ [("gravity", Examples.three_lessons)] 0 true
                 Examples.saved_at_2 Examples.no_seed))
  = Examples.saved_at_2.
Proof.
  apply init_restore_keeps_status.
  intros p Hp. apply list_elem_of_singleton in Hp as ->. vm_compute. eauto.
Defined.

(** ** Looking up a list *)

Lemma getitem_Raise {A} (l : list A) (i : Z) (e : exn) :
  getitem l i = Raise e -> e = IndexError.
Proof.
  unfold getitem.
  destruct ((0 <=? _) && _); [| congruence].
  destruct (l !! _); [discriminate | congruence].
Qed.

Lemma getitem_elem {A} (l : list A) (i : Z) (x : A) :
  getitem l i = Return x -> x ∈ l.
Proof.
  unfold getitem.
  destruct ((0 <=? _) && _); [| discriminate].
  destruct (l !! _) as [y|] eqn:Hy; [| discriminate].
  intros [= <-]. eapply list_elem_of_lookup_2; eassumption.
Qed.

Lemma getitem_in_range {A} (l : list A) (i : Z) :
  0 <= i < Z.of_nat (length l) ->
  exists x, getitem l i = Return x /\ l !! Z.to_nat i = Some x.
Proof.
  intros Hi. unfold getitem.
  destruct (Z.ltb_spec i 0); [lia |].
  destruct (Z.leb_spec 0 i); [| lia].
  destruct (Z.ltb_spec i (Z.of_nat (length l))); [| lia]. simpl.
  destruct (lookup_lt_is_Some_2 l (Z.to_nat i)) as [x Hx]; [lia |].
  rewrite Hx. eauto.
Qed.

(** ** One iteration of the per-step routine *)

Section CallFacts.

Variable np_mean : list float -> float.
Variables trainer_steps trainer_max_steps : gmap string Z.
Variable trainer_reward_buffer : gmap string (list float).

#[local] Abbreviation step :=
  (update_parameter np_mean trainer_steps trainer_max_steps trainer_reward_buffer).
#[local] Abbreviation loop :=
  (update_loop np_mean trainer_steps trainer_max_steps trainer_reward_buffer).

(** An iteration writes nothing, or it stores a smoothing value for a
    parameter that has a current lesson with a criteria and a smoothing
    value, and then perhaps the next lesson index. *)
Lemma update_parameter_cases flags q settings w :
  let r := step flags (q, settings) w in
  (snd r = w /\ (fst r = Return flags \/ is_raise (fst r) = true))
  \/ exists i lesson c v,
       get_parameter_state (status w) q = Some i
       /\ getitem (lessons settings) i = Return lesson
       /\ completion_criteria lesson = Some c
       /\ is_Some (_smoothing_values (self w) !! q)
       /\ ((snd r = set_smoothing q v w /\ fst r = Return flags)
           \/ (snd r = set_lesson_num q (i + 1) (set_smoothing q v w)
               /\ ((fst r = Return (true, if require_reset c then true else snd flags)
                    /\ is_raise (getitem (lessons settings) (i + 1)) = false)
                   \/ fst r = Raise IndexError))).
Proof.
  unfold update_parameter, bind, gets, lift, modify, ret, logger_info,
    dict_getitem. simpl.
  repeat (case_match; simplify_eq/=);
    first
      [ left; split; [reflexivity |];
        first [left; reflexivity | right; reflexivity]
      | right; eexists _, _, _, _;
        (split; [reflexivity |]); (split; [eassumption |]);
        (split; [eassumption |]); (split; [eauto |]);
        first
          [ left; split; reflexivity
          | right; split; [reflexivity |];
            first
              [ left; split;
                [ repeat match goal with
                         | H : require_reset _ = _ |- _ => rewrite H
                         end; reflexivity
                | match goal with
                  | H : getitem _ (_ + 1) = _ |- _ => rewrite H; reflexivity
                  end ]
              | right; f_equal; eapply getitem_Raise; eassumption ] ] ].
Qed.

(** What holds of the flags and the world before an iteration and is kept
    by every iteration that returns holds when the loop returns. *)
Lemma update_loop_Return_inv (I : bool * bool -> world -> Prop) items :
  (forall item flags w flags' w',
      item ∈ items -> I flags w ->
      step flags item w = (Return flags', w') -> I flags' w') ->
  forall flags w flags' w',
    I flags w -> loop items flags w = (Return flags', w') -> I flags' w'.
Proof.
  induction items as [|item items IH]; intros Hstep flags w flags' w' HI Hloop.
  - injection Hloop as <- <-. assumption.
  - rewrite update_loop_cons in Hloop.
    destruct (step flags item w) as [[flags1|e] w1] eqn:E; [| discriminate].
    apply (IH ltac:(intros item' f v f' v' Hin; apply Hstep; now right)
             flags1 w1 flags' w'); [| assumption].
    eapply Hstep; [left | eassumption | eassumption].
Qed.

(** What holds of the world and is kept by every iteration, whatever its
    outcome, holds after the loop. *)
Lemma update_loop_world_inv (I : world -> Prop) items :
  (forall item flags w, item ∈ items -> I w -> I (snd (step flags item w))) ->
  forall flags w, I w -> I (snd (loop items flags w)).
Proof.
  induction items as [|item items IH]; intros Hstep flags w HI; [assumption |].
  rewrite update_loop_cons.
  pose proof (Hstep item flags w ltac:(left) HI) as H1.
  destruct (step flags item w) as [[flags1|e] w1]; simpl in H1; [| assumption].
  apply IH; [| assumption].
  intros item' flags' w' Hin. apply Hstep. now right.
Qed.

(** A loop that raises does so in one of its iterations, after the ones
    before it have returned. *)
Lemma update_loop_Raise_inv items flags w e w' :
  loop items flags w = (Raise e, w') ->
  exists before item after flags1 w1,
    items = before ++ item :: after
    /\ loop before flags w = (Return flags1, w1)
    /\ step flags1 item w1 = (Raise e, w').
Proof.
  revert flags w. induction items as [|item items IH]; intros flags w Hloop;
    [discriminate |].
  rewrite update_loop_cons in Hloop.
  destruct (step flags item w) as [[flags1|e1] w1] eqn:E.
  - destruct (IH flags1 w1 Hloop) as (before & item' & after & f2 & w2 & -> & Hb & Hs).
    exists (item :: before), item', after, f2, w2. split; [reflexivity |].
    split; [| assumption]. rewrite update_loop_cons, E. assumption.
  - injection Hloop as <- <-.
    exists [], item, items, flags, w. repeat split; assumption.
Qed.

End CallFacts.

(** ** The flags of a call *)

Section CallTheorems.

Variable np_mean : list float -> float.
Variables trainer_steps trainer_max_steps : gmap string Z.
Variable trainer_reward_buffer : gmap string (list float).

#[local] Abbreviation step :=
  (update_parameter np_mean trainer_steps trainer_max_steps trainer_reward_buffer).
#[local] Abbreviation loop :=
  (update_loop np_mean trainer_steps trainer_max_steps trainer_reward_buffer).

(** The flags and the status after an iteration that returns. *)
Lemma update_parameter_Return flags q settings w flags' w' :
  step flags (q, settings) w = (Return flags', w') ->
  (flags' = flags /\ status w' = status w)
  \/ exists i lesson c,
       getitem (lessons settings) i = Return lesson
       /\ completion_criteria lesson = Some c
       /\ flags' = (true, if require_reset c then true else snd flags)
       /\ set_calls (status w') = (q, i + 1) :: set_calls (status w).
Proof.
  intros E.
  pose proof (update_parameter_cases np_mean trainer_steps trainer_max_steps
                trainer_reward_buffer flags q settings w) as H.
  cbv zeta in H. rewrite E in H. simpl in H.
  destruct H as [[-> [[= ->]|]]|(i & lesson & c & v & _ & Hitem & Hc & _ & H)];
    [left; split; reflexivity | discriminate |].
  destruct H as [[-> [= ->]]|[-> [[[= ->] _]|]]]; [| | discriminate].
  - left. split; reflexivity.
  - right. exists i, lesson, c. repeat split; assumption.
Qed.

Lemma update_loop_flags items flags w flags' w' :
  loop items flags w = (Return flags', w') ->
  (snd flags = true -> fst flags = true) ->
  snd flags' = true -> fst flags' = true.
Proof.
  intros Hloop Hinit.
  apply (update_loop_Return_inv np_mean trainer_steps trainer_max_steps
           trainer_reward_buffer
           (fun f _ => snd f = true -> fst f = true) items)
    with (flags := flags) (w := w) (w' := w'); [| assumption | assumption].
  intros [q settings] f v f' v' _ Hf E.
  destruct (update_parameter_Return f q settings v f' v' E)
    as [[-> _]|(i & lesson & c & _ & _ & -> & _)]; [assumption | reflexivity].
Qed.

Lemma update_loop_status items flags w flags' w' :
  loop items flags w = (Return flags', w') ->
  (fst flags' = false -> fst flags = false /\ status w' = status w)
  /\ (length (set_calls (status w)) <= length (set_calls (status w')))%nat
  /\ (fst flags = false -> fst flags' = true ->
      (length (set_calls (status w)) < length (set_calls (status w')))%nat).
Proof.
  intros Hloop.
  apply (update_loop_Return_inv np_mean trainer_steps trainer_max_steps
           trainer_reward_buffer
           (fun f v =>
              (fst f = false -> fst flags = false /\ status v = status w)
              /\ (length (set_calls (status w)) <= length (set_calls (status v)))%nat
              /\ (fst flags = false -> fst f = true ->
                  (length (set_calls (status w)) < length (set_calls (status v)))%nat))
           items)
    with (flags := flags) (w := w) (flags' := flags') (w' := w');
    [| | assumption].
  - intros [q settings] f v f' v' _ (Hsame & Hle & Hlt) E.
    destruct (update_parameter_Return f q settings v f' v' E)
      as [[-> ->]|(i & lesson & c & _ & _ & -> & Hcalls)].
    + repeat split; tauto.
    + rewrite Hcalls. simpl. repeat split; try discriminate; lia.
  - repeat split; [assumption | lia | congruence].
Qed.

Lemma update_loop_no_reset items flags w flags' w' :
  (forall q settings lesson c,
      (q, settings) ∈ items -> lesson ∈ lessons settings ->
      completion_criteria lesson = Some c -> require_reset c = false) ->
  loop items flags w = (Return flags', w') ->
  snd flags' = snd flags.
Proof.
  intros Hnone Hloop.
  apply (update_loop_Return_inv np_mean trainer_steps trainer_max_steps
           trainer_reward_buffer (fun f _ => snd f = snd flags) items)
    with (flags := flags) (w := w) (w' := w'); [| reflexivity | assumption].
  intros [q settings] f v f' v' Hin Hf E.
  destruct (update_parameter_Return f q settings v f' v' E)
    as [[-> _]|(i & lesson & c & Hitem & Hc & -> & _)]; [assumption |].
  simpl. rewrite (Hnone q settings lesson c Hin (getitem_elem _ _ _ Hitem) Hc).
  assumption.
Qed.

End CallTheorems.

(** X12: a call of [update_lessons] that returns never asks for a reset
    without reporting an update: [must_reset] implies [updated]. *)
Theorem update_lessons_reset_implies_updated
    (np_mean : list float -> float) (trainer_steps trainer_max_steps : gmap string Z)
    (trainer_reward_buffer : gmap string (list float)) (w : world)
    (updated must_reset : bool) :
  fst (update_lessons np_mean trainer_steps trainer_max_steps
         trainer_reward_buffer w) = Return (updated, must_reset) ->
  must_reset = true -> updated = true.
Proof.
  unfold update_lessons. intros Hcall.
  destruct (update_loop _ _ _ _ _ _ w) as [o w'] eqn:E. simpl in Hcall. subst o.
  apply (update_loop_flags _ _ _ _ _ _ _ _ _ E). discriminate.
Qed.

Lemma update_lessons_reset_implies_updated_witness :
  fst (update_lessons sequential_mean Examples.steps Examples.max_steps
         Examples.rewards Examples.fresh_reset) = Return (true, true)
  /\ true = true.
Proof.
  split; [reflexivity |].
  apply (update_lessons_reset_implies_updated sequential_mean Examples.steps
           Examples.max_steps Examples.rewards Examples.fresh_reset true true);
    reflexivity.
Defined.

(** X13: a call of [update_lessons] that returns with [updated] false has
    left the status as it was; one that returns with [updated] true has
    called the set operation of the status. *)
Theorem update_lessons_updated_iff_written
    (np_mean : list float -> float) (trainer_steps trainer_max_steps : gmap string Z)
    (trainer_reward_buffer : gmap string (list float)) (w : world)
    (updated must_reset : bool) :
  let r := update_lessons np_mean trainer_steps trainer_max_steps
             trainer_reward_buffer w in
  fst r = Return (updated, must_reset) ->
  (updated = false -> status (snd r) = status w)
  /\ (updated = true ->
      (length (set_calls (status w)) < length (set_calls (status (snd r))))%nat).
Proof.
  unfold update_lessons. simpl. intros Hcall.
  destruct (update_loop _ _ _ _ _ _ w) as [o w'] eqn:E. simpl in *. subst o.
  destruct (update_loop_status _ _ _ _ _ _ _ _ _ E) as (Hsame & _ & Hlt). split.
  - intros ->. now apply Hsame.
  - intros ->. now apply Hlt.
Qed.

Lemma update_lessons_updated_iff_written_witness :
  status (snd (update_lessons sequential_mean Examples.few_steps Examples.max_steps
                 Examples.rewards Examples.fresh_reset))
  = status Examples.fresh_reset
  /\ (length (set_calls (status Examples.fresh_reset))
      < length (set_calls
                  (status (snd (update_lessons sequential_mean Examples.steps
                                  Examples.max_steps Examples.rewards
                                  Examples.fresh_reset)))))%nat.
Proof.
  split.
  - apply (update_lessons_updated_iff_written sequential_mean Examples.few_steps
             Examples.max_steps Examples.rewards Examples.fresh_reset false false);
      reflexivity.
  - apply (update_lessons_updated_iff_written sequential_mean Examples.steps
             Examples.max_steps Examples.rewards Examples.fresh_reset true true);
      reflexivity.
Defined.

(** X14: when no lesson of the manager has a completion criteria that
    requires a reset, a call of [update_lessons] that returns has
    [must_reset] false. *)
Theorem update_lessons_no_reset
    (np_mean : list float -> float) (trainer_steps trainer_max_steps : gmap string Z)
    (trainer_reward_buffer : gmap string (list float)) (w : world)
    (updated must_reset : bool) :
  (forall lesson c,
      lesson ∈ lessons_in_order (self w) ->
      completion_criteria lesson = Some c -> require_reset c = false) ->
  fst (update_lessons np_mean trainer_steps trainer_max_steps
         trainer_reward_buffer w) = Return (updated, must_reset) ->
  must_reset = false.
Proof.
  unfold update_lessons. intros Hnone Hcall.
  destruct (update_loop _ _ _ _ _ _ w) as [o w'] eqn:E. simpl in Hcall. subst o.
  apply (update_loop_no_reset np_mean trainer_steps trainer_max_steps
           trainer_reward_buffer _ _ _ _ _) in E; [assumption |].
  intros q settings lesson c Hin Hlesson Hc.
  apply (Hnone lesson c); [| assumption].
  eapply lessons_in_order_elem; eassumption.
Qed.

Lemma update_lessons_no_reset_witness :
  fst (update_lessons sequential_mean Examples.steps Examples.max_steps
         Examples.rewards Examples.fresh) = Return (true, false)
  /\ false = false.
Proof.
  split; [reflexivity |].
  apply (update_lessons_no_reset sequential_mean Examples.steps
           Examples.max_steps Examples.rewards Examples.fresh true false);
    [| reflexivity].
  intros lesson c Hin Hc.
  apply lessons_in_order_inv in Hin as (p & settings & Hitem & Hlesson).
  apply list_elem_of_singleton in Hitem. injection Hitem as -> ->.
  apply elem_of_cons in Hlesson as [->|Hlesson];
    [injection Hc as <-; reflexivity |].
  apply list_elem_of_singleton in Hlesson as ->.
  injection Hc as <-. reflexivity.
Defined.

(** ** What a call may change *)

Section CallFrame.

Variable np_mean : list float -> float.
Variables trainer_steps trainer_max_steps : gmap string Z.
Variable trainer_reward_buffer : gmap string (list float).

#[local] Abbreviation step :=
  (update_parameter np_mean trainer_steps trainer_max_steps trainer_reward_buffer).
#[local] Abbreviation loop :=
  (update_loop np_mean trainer_steps trainer_max_steps trainer_reward_buffer).

Lemma same_keys_refl w : same_keys w w.
Proof. repeat split; tauto. Qed.

Lemma same_keys_trans w1 w2 w3 :
  same_keys w1 w2 -> same_keys w2 w3 -> same_keys w1 w3.
Proof.
  intros (Hs1 & Hv1 & Hg1) (Hs2 & Hv2 & Hg2). split; [congruence |].
  split; intros k; [rewrite Hv2; apply Hv1 | rewrite Hg2; apply Hg1].
Qed.

Lemma same_keys_set_smoothing q v w :
  is_Some (_smoothing_values (self w) !! q) -> same_keys w (set_smoothing q v w).
Proof.
  intros Hq. split; [reflexivity |]. split; [| tauto].
  intros k. simpl. rewrite lookup_insert_is_Some.
  destruct (decide (q = k)) as [->|]; tauto.
Qed.

Lemma same_keys_set_lesson_num q n w :
  is_Some (get_parameter_state (status w) q) -> same_keys w (set_lesson_num q n w).
Proof.
  intros Hq. split; [reflexivity |]. split; [tauto |].
  intros k. unfold get_parameter_state in *. simpl. rewrite lookup_insert_is_Some.
  destruct (decide (q = k)) as [->|]; tauto.
Qed.

Lemma update_parameter_same_keys flags q settings w :
  same_keys w (snd (step flags (q, settings) w)).
Proof.
  destruct (update_parameter_cases np_mean trainer_steps trainer_max_steps
              trainer_reward_buffer flags q settings w)
    as [[-> _]|(i & lesson & c & v & Hget & _ & _ & Hv & [[-> _]|[-> _]])].
  - apply same_keys_refl.
  - now apply same_keys_set_smoothing.
  - apply (same_keys_trans w (set_smoothing q v w));
      [now apply same_keys_set_smoothing |].
    apply same_keys_set_lesson_num. unfold get_parameter_state in *. simpl.
    rewrite Hget. eauto.
Qed.

Lemma update_loop_same_keys items flags w :
  same_keys w (snd (loop items flags w)).
Proof.
  apply (update_loop_world_inv np_mean trainer_steps trainer_max_steps
           trainer_reward_buffer (same_keys w) items);
    [| apply same_keys_refl].
  intros [q settings] f v _ Hv.
  eapply same_keys_trans; [eassumption | apply update_parameter_same_keys].
Qed.

(** The lesson index of the parameter of an iteration stays or moves to the
    next one. *)
Lemma update_parameter_index flags q settings w i :
  get_parameter_state (status w) q = Some i ->
  get_parameter_state (status (snd (step flags (q, settings) w))) q = Some i
  \/ get_parameter_state (status (snd (step flags (q, settings) w))) q
     = Some (i + 1).
Proof.
  intros Hget.
  destruct (update_parameter_cases np_mean trainer_steps trainer_max_steps
              trainer_reward_buffer flags q settings w)
    as [[-> _]|(j & lesson & c & v & Hj & _ & _ & _ & [[-> _]|[-> _]])].
  - now left.
  - now left.
  - right. unfold get_parameter_state in *. simpl.
    rewrite lookup_insert_eq. congruence.
Qed.

Lemma update_loop_index items flags w p i :
  NoDup (items.*1) ->
  get_parameter_state (status w) p = Some i ->
  get_parameter_state (status (snd (loop items flags w))) p = Some i
  \/ get_parameter_state (status (snd (loop items flags w))) p = Some (i + 1).
Proof.
  revert flags w. induction items as [|[q settings] items IH];
    intros flags w Hnd Hget; [now left |].
  rewrite fmap_cons in Hnd.
  pose proof (NoDup_cons_1_1 _ _ Hnd) as Hq. apply NoDup_cons_1_2 in Hnd.
  rewrite update_loop_cons. destruct (decide (p = q)) as [->|Hne].
  - pose proof (update_parameter_index flags q settings w i Hget) as Hstep.
    destruct (step flags (q, settings) w) as [[flags1|e] w1]; simpl in Hstep;
      [| assumption].
    destruct (update_loop_untouched np_mean trainer_steps trainer_max_steps
                trainer_reward_buffer items flags1 q w1 Hq) as [-> _].
    assumption.
  - destruct (update_parameter_untouched np_mean trainer_steps trainer_max_steps
                trainer_reward_buffer flags p q settings w Hne) as [Hsame _].
    destruct (step flags (q, settings) w) as [[flags1|e] w1]; simpl in Hsame.
    + apply IH; [assumption | congruence].
    + left. simpl. congruence.
Qed.

End CallFrame.

(** X15: a call of [update_lessons], whatever its outcome, leaves the
    settings as they are, adds and removes no name among those that have a
    smoothing value or a persisted lesson index, and leaves alone every name
    that is not a parameter of the manager. *)
Theorem update_lessons_frame
    (np_mean : list float -> float) (trainer_steps trainer_max_steps : gmap string Z)
    (trainer_reward_buffer : gmap string (list float)) (w : world) :
  let w' := snd (update_lessons np_mean trainer_steps trainer_max_steps
                   trainer_reward_buffer w) in
  _dict_settings (self w') = _dict_settings (self w)
  /\ (forall k, is_Some (_smoothing_values (self w') !! k)
                <-> is_Some (_smoothing_values (self w) !! k))
  /\ (forall k, is_Some (get_parameter_state (status w') k)
                <-> is_Some (get_parameter_state (status w) k))
  /\ (forall p, p ∉ (_dict_settings (self w)).*1 -> untouched p w w').
Proof.
  simpl. unfold update_lessons.
  destruct (update_loop_same_keys np_mean trainer_steps trainer_max_steps
              trainer_reward_buffer (_dict_settings (self w)) (false, false) w)
    as (Hs & Hv & Hg).
  split; [assumption |]. split; [assumption |]. split; [assumption |].
  intros p Hp. now apply update_loop_untouched.
Qed.

Lemma update_lessons_frame_witness :
  untouched "wind" Examples.fresh
    (snd (update_lessons sequential_mean Examples.steps Examples.max_steps
            Examples.rewards Examples.fresh)).
Proof.
  destruct (update_lessons_frame sequential_mean Examples.steps Examples.max_steps
              Examples.rewards Examples.fresh) as (_ & _ & _ & Hout).
  apply Hout. vm_compute.
  intros Hin. apply list_elem_of_singleton in Hin. discriminate.
Defined.

(** X16: a call of [update_lessons], whatever its outcome, moves the
    persisted lesson index of a parameter by at most one lesson, forward.
    (The names of the parameters are the keys of a dict: no name occurs
    twice.) *)
Theorem update_lessons_at_most_one_lesson
    (np_mean : list float -> float) (trainer_steps trainer_max_steps : gmap string Z)
    (trainer_reward_buffer : gmap string (list float)) (w : world)
    (p : string) (i : Z) :
  NoDup ((_dict_settings (self w)).*1) ->
  get_parameter_state (status w) p = Some i ->
  let w' := snd (update_lessons np_mean trainer_steps trainer_max_steps
                   trainer_reward_buffer w) in
  get_parameter_state (status w') p = Some i
  \/ get_parameter_state (status w') p = Some (i + 1).
Proof.
  intros Hnd Hget. cbv zeta. unfold update_lessons.
  apply update_loop_index; assumption.
Qed.

Lemma update_lessons_at_most_one_lesson_witness :
  let w' := snd (update_lessons sequential_mean Examples.steps Examples.max_steps
                   Examples.rewards Examples.fresh_pair) in
  get_parameter_state (status w') "gravity" = Some 0
  \/ get_parameter_state (status w') "gravity" = Some (0 + 1).
Proof.
  apply update_lessons_at_most_one_lesson.
  - apply (bool_decide_unpack _). vm_compute. exact I.
  - reflexivity.
Defined.

(** ** The current samplers *)

Lemma current_samplers_loop_Return g items :
  forall d0 d,
    current_samplers_loop g items d0 = Return d ->
    (forall item, item ∈ items -> has_current_lesson g item)
    /\ (forall k, k ∉ items.*1 -> d !! k = d0 !! k)
    /\ (NoDup (items.*1) ->
        forall p settings, (p, settings) ∈ items ->
          exists i lesson,
            get_parameter_state g p = Some i
            /\ getitem (lessons settings) i = Return lesson
            /\ d !! p = Some (sampler lesson)).
Proof.
  induction items as [|[q settings] items IH]; intros d0 d Hloop.
  - injection Hloop as <-. split; [| split].
    + intros item Hin. now apply elem_of_nil in Hin.
    + reflexivity.
    + intros _ p s Hin. now apply elem_of_nil in Hin.
  - simpl in Hloop.
    destruct (get_parameter_state g q) as [i|] eqn:Hget; [| discriminate].
    destruct (getitem (lessons settings) i) as [lesson|e] eqn:Hitem;
      [| discriminate].
    destruct (IH _ _ Hloop) as (Hall & Hout & Hin). split; [| split].
    + intros item Hitem'. apply elem_of_cons in Hitem' as [->|Hitem'].
      * exists i, lesson. split; assumption.
      * now apply Hall.
    + intros k Hk. rewrite fmap_cons, not_elem_of_cons in Hk.
      destruct Hk as [Hne Hk]. rewrite (Hout k Hk).
      apply lookup_insert_ne. simpl in Hne. congruence.
    + intros Hnd p s Hp. rewrite fmap_cons in Hnd.
      pose proof (NoDup_cons_1_1 _ _ Hnd) as Hq. apply NoDup_cons_1_2 in Hnd.
      apply elem_of_cons in Hp as [[= -> ->]|Hp].
      * exists i, lesson. split; [assumption |]. split; [assumption |].
        rewrite (Hout q Hq). apply lookup_insert_eq.
      * now apply Hin.
Qed.

Lemma current_samplers_loop_returns g items :
  (forall item, item ∈ items -> has_current_lesson g item) ->
  forall d0, exists d, current_samplers_loop g items d0 = Return d.
Proof.
  induction items as [|[q settings] items IH]; intros Hall d0; simpl; [eauto |].
  destruct (Hall (q, settings)) as (i & lesson & Hget & Hitem); [left |].
  simpl in Hget, Hitem. rewrite Hget, Hitem.
  apply IH. intros item Hin. apply Hall. now right.
Qed.

Lemma current_samplers_loop_keys g items :
  forall d0 d k,
    current_samplers_loop g items d0 = Return d ->
    is_Some (d !! k) <-> k ∈ items.*1 \/ is_Some (d0 !! k).
Proof.
  induction items as [|[q settings] items IH]; intros d0 d k Hloop.
  - injection Hloop as <-. rewrite fmap_nil, elem_of_nil. tauto.
  - simpl in Hloop.
    destruct (get_parameter_state g q) as [i|]; [| discriminate].
    destruct (getitem (lessons settings) i) as [lesson|e]; [| discriminate].
    rewrite (IH _ _ k Hloop), lookup_insert_is_Some, fmap_cons, elem_of_cons.
    simpl. destruct (decide (q = k)) as [->|]; intuition congruence.
Qed.

(** X17: when [get_current_samplers] returns, its dictionary has exactly the
    parameters of the manager as keys, and gives every parameter the sampler
    of the lesson found at its persisted lesson index. (The names of the
    parameters are the keys of a dict: no name occurs twice.) *)
Theorem get_current_samplers_spec (w : world) (d : gmap string loc) :
  NoDup ((_dict_settings (self w)).*1) ->
  get_current_samplers w = Return d ->
  (forall k, is_Some (d !! k) <-> k ∈ (_dict_settings (self w)).*1)
  /\ (forall p settings,
         (p, settings) ∈ _dict_settings (self w) ->
         exists i lesson,
           get_parameter_state (status w) p = Some i
           /\ getitem (lessons settings) i = Return lesson
           /\ d !! p = Some (sampler lesson)).
Proof.
  unfold get_current_samplers. intros Hnd Hloop. split.
  - intros k. rewrite (current_samplers_loop_keys _ _ _ _ k Hloop), lookup_empty.
    split; [intros [|[? [=]]]; assumption | now left].
  - destruct (current_samplers_loop_Return _ _ _ _ Hloop) as (_ & _ & Hin).
    now apply Hin.
Qed.

Lemma get_current_samplers_spec_witness :
  exists i lesson,
    get_parameter_state (status Examples.fresh_pair) "wind" = Some i
    /\ getitem (lessons Examples.single_lesson) i = Return lesson
    /\ ({["gravity" := 0%nat; "wind" := 2%nat]} : gmap string loc) !! "wind"
       = Some (sampler lesson).
Proof.
  destruct (get_current_samplers_spec Examples.fresh_pair
              {["gravity" := 0%nat; "wind" := 2%nat]}) as [_ Hall].
  - apply (bool_decide_unpack _). vm_compute. exact I.
  - vm_compute. reflexivity.
  - apply Hall. vm_compute. right. left.
Defined.



(** ** Parameters with and without a current lesson *)

Section CallValidity.

Variable np_mean : list float -> float.
Variables trainer_steps trainer_max_steps : gmap string Z.
Variable trainer_reward_buffer : gmap string (list float).

#[local] Abbreviation step :=
  (update_parameter np_mean trainer_steps trainer_max_steps trainer_reward_buffer).
#[local] Abbreviation loop :=
  (update_loop np_mean trainer_steps trainer_max_steps trainer_reward_buffer).

Lemma has_current_lesson_untouched p settings w w' :
  untouched p w w' ->
  has_current_lesson (status w) (p, settings) ->
  has_current_lesson (status w') (p, settings).
Proof.
  intros [Hsame _] (i & lesson & Hget & Hitem). exists i, lesson.
  simpl in *. split; [congruence | assumption].
Qed.

Lemma update_loop_return_valid items :
  NoDup (items.*1) ->
  forall flags w flags' w',
    loop items flags w = (Return flags', w') ->
    forall item, item ∈ items -> has_current_lesson (status w') item.
Proof.
  induction items as [|[q settings] items IH]; intros Hnd flags w flags' w' Hloop
    item Hin; [now apply elem_of_nil in Hin |].
  rewrite fmap_cons in Hnd.
  pose proof (NoDup_cons_1_1 _ _ Hnd) as Hq. apply NoDup_cons_1_2 in Hnd.
  rewrite update_loop_cons in Hloop.
  destruct (step flags (q, settings) w) as [[flags1|e] w1] eqn:E; [| discriminate].
  apply elem_of_cons in Hin as [->|Hin].
  - pose proof (update_loop_untouched np_mean trainer_steps trainer_max_steps
                  trainer_reward_buffer items flags1 q w1 Hq) as Hrest.
    rewrite Hloop in Hrest. simpl in Hrest.
    apply (has_current_lesson_untouched q settings w1 w' Hrest).
    destruct (update_parameter_return_valid np_mean trainer_steps
                trainer_max_steps trainer_reward_buffer _ _ _ _ _ _ E)
      as (i & lesson & Hget & Hitem).
    exists i, lesson. split; assumption.
  - eapply IH; eassumption.
Qed.

(** A parameter at which every iteration raises without writing makes the
    call raise, and is left alone by the call. *)
Lemma update_loop_raises_at items flags w p settings :
  NoDup (items.*1) ->
  (p, settings) ∈ items ->
  (forall flags1 w1,
      untouched p w w1 -> exists e, step flags1 (p, settings) w1 = (Raise e, w1)) ->
  is_raise (fst (loop items flags w)) = true
  /\ untouched p w (snd (loop items flags w)).
Proof.
  intros Hnd Hin Hraise.
  apply list_elem_of_split in Hin as (before & after & ->).
  rewrite fmap_app, fmap_cons in Hnd. simpl in Hnd.
  apply list.NoDup_app in Hnd as (_ & Hbefore & _).
  assert (p ∉ before.*1) as Hp.
  { intros Hp. apply (Hbefore p Hp). left. }
  rewrite update_loop_app.
  pose proof (update_loop_untouched np_mean trainer_steps trainer_max_steps
                trainer_reward_buffer before flags p w Hp) as Hw1.
  destruct (loop before flags w) as [[flags1|e] w1]; simpl in Hw1;
    [| split; [reflexivity | assumption]].
  rewrite update_loop_cons.
  destruct (Hraise flags1 w1 Hw1) as [e ->]. split; [reflexivity | assumption].
Qed.

Lemma update_parameter_no_current_lesson flags p settings w :
  ~ has_current_lesson (status w) (p, settings) ->
  exists e, step flags (p, settings) w = (Raise e, w)
            /\ (e = TypeError \/ e = IndexError).
Proof.
  intros Hno. unfold update_parameter, bind, gets, lift. simpl.
  destruct (get_parameter_state (status w) p) as [i|] eqn:Hget;
    [| eexists; split; [reflexivity | now left]].
  destruct (getitem (lessons settings) i) as [lesson|e] eqn:Hitem.
  - exfalso. apply Hno. exists i, lesson. split; assumption.
  - eexists. split; [reflexivity |]. right. eapply getitem_Raise; eassumption.
Qed.

Lemma update_parameter_missing_entry flags p settings w i lesson c :
  get_parameter_state (status w) p = Some i ->
  getitem (lessons settings) i = Return lesson ->
  completion_criteria lesson = Some c ->
  trainer_steps !! behavior c = None
  \/ trainer_max_steps !! behavior c = None
  \/ trainer_reward_buffer !! behavior c = None ->
  exists e, step flags (p, settings) w = (Raise e, w).
Proof.
  intros Hget Hitem Hc Hmissing.
  pose proof (getitem_Return_lt _ _ _ Hitem) as Hlt.
  unfold update_parameter, bind, gets, lift, ret, dict_getitem. simpl.
  rewrite Hget, Hitem, Hc.
  destruct (Z.gtb_spec (Z.of_nat (length (lessons settings))) i) as [_|]; [| lia].
  destruct (trainer_steps !! behavior c) as [n|] eqn:Hn; [| eauto].
  destruct (float_of_int n) as [fn|]; [| eauto].
  destruct (trainer_max_steps !! behavior c) as [d|] eqn:Hd; [| eauto].
  destruct (float_of_int d) as [fd|]; [| eauto].
  destruct (truediv fn fd) as [progress|]; [| eauto].
  destruct (trainer_reward_buffer !! behavior c) as [buf|] eqn:Hb; [| eauto].
  destruct Hmissing as [|[|]]; discriminate.
Qed.

End CallValidity.

(** X19: a call of [update_lessons] that returns leaves every parameter of
    the manager at a persisted lesson index at which its lessons have an
    item, so that [get_current_samplers] returns after it. (The names of
    the parameters are the keys of a dict: no name occurs twice.) *)
Theorem update_lessons_return_valid
    (np_mean : list float -> float) (trainer_steps trainer_max_steps : gmap string Z)
    (trainer_reward_buffer : gmap string (list float)) (w : world) :
  NoDup ((_dict_settings (self w)).*1) ->
  let r := update_lessons np_mean trainer_steps trainer_max_steps
             trainer_reward_buffer w in
  is_raise (fst r) = false ->
  (forall item, item ∈ _dict_settings (self w) ->
                has_current_lesson (status (snd r)) item)
  /\ is_raise (get_current_samplers (snd r)) = false.
Proof.
  intros Hnd. simpl. unfold update_lessons. intros Hret.
  pose proof (update_loop_same_keys np_mean trainer_steps trainer_max_steps
                trainer_reward_buffer (_dict_settings (self w)) (false, false) w)
    as (Hsettings & _ & _).
  destruct (update_loop _ _ _ _ _ _ w) as [[flags|e] w'] eqn:E; [| discriminate].
  simpl in *.
  assert (forall item, item ∈ _dict_settings (self w) ->
                       has_current_lesson (status w') item) as Hall.
  { eapply update_loop_return_valid; eassumption. }
  split; [assumption |].
  unfold get_current_samplers. rewrite Hsettings.
  destruct (current_samplers_loop_returns _ _ Hall ∅) as [d ->]. reflexivity.
Qed.

Lemma update_lessons_return_valid_witness :
  is_raise (get_current_samplers
              (snd (update_lessons sequential_mean Examples.steps
                      Examples.max_steps Examples.rewards Examples.fresh_pair)))
  = false.
Proof.
  destruct (update_lessons_return_valid sequential_mean Examples.steps
              Examples.max_steps Examples.rewards Examples.fresh_pair)
    as [_ Hret].
  - apply (bool_decide_unpack _). vm_compute. exact I.
  - reflexivity.
  - exact Hret.
Defined.

(** X20: a parameter without a persisted lesson index, or with one at which
    its lessons have no item, makes every call of [update_lessons] raise,
    and the call leaves the lesson index and the smoothing value of that
    parameter as they are; at the parameter the exception is [TypeError] or
    [IndexError]. (The names of the parameters are the keys of a dict: no
    name occurs twice.) *)
Theorem update_lessons_no_current_lesson
    (np_mean : list float -> float) (trainer_steps trainer_max_steps : gmap string Z)
    (trainer_reward_buffer : gmap string (list float)) (w : world)
    (p : string) (settings : EnvironmentParameterSettings) :
  NoDup ((_dict_settings (self w)).*1) ->
  (p, settings) ∈ _dict_settings (self w) ->
  ~ has_current_lesson (status w) (p, settings) ->
  let r := update_lessons np_mean trainer_steps trainer_max_steps
             trainer_reward_buffer w in
  is_raise (fst r) = true
  /\ untouched p w (snd r)
  /\ (forall flags,
         exists e,
           update_parameter np_mean trainer_steps trainer_max_steps
             trainer_reward_buffer flags (p, settings) w = (Raise e, w)
           /\ (e = TypeError \/ e = IndexError)).
Proof.
  intros Hnd Hin Hno. simpl. unfold update_lessons.
  destruct (update_loop_raises_at np_mean trainer_steps trainer_max_steps
              trainer_reward_buffer (_dict_settings (self w)) (false, false) w
              p settings Hnd Hin) as [Hraise Hp].
  { intros flags1 w1 Hw1.
    destruct (update_parameter_no_current_lesson np_mean trainer_steps
                trainer_max_steps trainer_reward_buffer flags1 p settings w1)
      as (e & He & _); [| eauto].
    intros (i & lesson & Hget & Hitem). apply Hno. exists i, lesson.
    destruct Hw1 as [Hsame _]. simpl in *. split; [congruence | assumption]. }
  split; [assumption |]. split; [assumption |].
  intros flags. now apply update_parameter_no_current_lesson.
Qed.

Lemma update_lessons_no_current_lesson_witness :
  is_raise (fst (update_lessons sequential_mean Examples.steps Examples.max_steps
                   Examples.rewards Examples.restored_at_5)) = true
  /\ untouched "gravity" Examples.restored_at_5
       (snd (update_lessons sequential_mean Examples.steps Examples.max_steps
               Examples.rewards Examples.restored_at_5)).
Proof.
  destruct (update_lessons_no_current_lesson sequential_mean Examples.steps
              Examples.max_steps Examples.rewards Examples.restored_at_5
              "gravity" Examples.two_lessons) as (Hraise & Hleft & _).
  - apply (bool_decide_unpack _). vm_compute. exact I.
  - vm_compute. left.
  - intros (i & lesson & Hget & Hitem).
    vm_compute in Hget. injection Hget as <-. vm_compute in Hitem. discriminate.
  - split; assumption.
Defined.

(** X21: when the step counts, the maximum-step counts or the reward
    buffers have no entry for the behavior of the completion criteria on
    the current lesson of a parameter, the call of [update_lessons] raises,
    and it leaves the lesson index and the smoothing value of that parameter
    as they are; with no entry among the step counts the iteration of the
    parameter raises [KeyError] for the behavior. (The names of the
    parameters are the keys of a dict: no name occurs twice.) *)
Theorem update_lessons_missing_entry
    (np_mean : list float -> float) (trainer_steps trainer_max_steps : gmap string Z)
    (trainer_reward_buffer : gmap string (list float)) (w : world)
    (p : string) (settings : EnvironmentParameterSettings) (i : Z)
    (lesson : Lesson) (c : CompletionCriteriaSettings) :
  NoDup ((_dict_settings (self w)).*1) ->
  (p, settings) ∈ _dict_settings (self w) ->
  get_parameter_state (status w) p = Some i ->
  getitem (lessons settings) i = Return lesson ->
  completion_criteria lesson = Some c ->
  trainer_steps !! behavior c = None
  \/ trainer_max_steps !! behavior c = None
  \/ trainer_reward_buffer !! behavior c = None ->
  let r := update_lessons np_mean trainer_steps trainer_max_steps
             trainer_reward_buffer w in
  is_raise (fst r) = true
  /\ untouched p w (snd r)
  /\ (trainer_steps !! behavior c = None ->
      forall flags,
        update_parameter np_mean trainer_steps trainer_max_steps
          trainer_reward_buffer flags (p, settings) w
        = (Raise (KeyError (behavior c)), w)).
Proof.
  intros Hnd Hin Hget Hitem Hc Hmissing. simpl. unfold update_lessons.
  destruct (update_loop_raises_at np_mean trainer_steps trainer_max_steps
              trainer_reward_buffer (_dict_settings (self w)) (false, false) w
              p settings Hnd Hin) as [Hraise Hp].
  { intros flags1 w1 [Hsame _].
    apply (update_parameter_missing_entry np_mean trainer_steps trainer_max_steps
             trainer_reward_buffer flags1 p settings w1 i lesson c);
      [congruence | assumption | assumption | assumption]. }
  split; [assumption |]. split; [assumption |].
  intros Hsteps flags.
  pose proof (getitem_Return_lt _ _ _ Hitem) as Hlt.
  unfold update_parameter, bind, gets, lift, dict_getitem. simpl.
  rewrite Hget, Hitem, Hc.
  destruct (Z.gtb_spec (Z.of_nat (length (lessons settings))) i) as [_|]; [| lia].
  now rewrite Hsteps.
Qed.

Lemma update_lessons_missing_entry_witness :
  is_raise (fst (update_lessons sequential_mean Examples.no_steps
                   Examples.max_steps Examples.rewards Examples.fresh_pair)) = true
  /\ update_parameter sequential_mean Examples.no_steps Examples.max_steps
       Examples.rewards (false, false) ("gravity", Examples.two_lessons)
       Examples.fresh_pair
     = (Raise (KeyError "walker"), Examples.fresh_pair).
Proof.
  destruct (update_lessons_missing_entry sequential_mean Examples.no_steps
              Examples.max_steps Examples.rewards Examples.fresh_pair
              "gravity" Examples.two_lessons 0
              {| sampler := 0%nat; completion_criteria := Some Examples.progress_half;
                 name := "light" |}
              Examples.progress_half) as (Hraise & _ & Hkey).
  - apply (bool_decide_unpack _). vm_compute. exact I.
  - vm_compute. left.
  - reflexivity.
  - reflexivity.
  - reflexivity.
  - left. reflexivity.
  - split; [exact Hraise |]. apply Hkey. reflexivity.
Defined.

(** ** The exceptions of a call *)

Lemma float_of_int_Raise (z : Z) (e : exn) :
  float_of_int z = Raise e -> e = OverflowError.
Proof. unfold float_of_int. destruct (is_infinity _); congruence. Qed.

Lemma truediv_Raise (a b : float) (e : exn) :
  truediv a b = Raise e -> e = ZeroDivisionError.
Proof. unfold truediv. destruct (b =? 0)%float; congruence. Qed.

Section CallErrors.

Variable np_mean : list float -> float.
Variables trainer_steps trainer_max_steps : gmap string Z.
Variable trainer_reward_buffer : gmap string (list float).

#[local] Abbreviation step :=
  (update_parameter np_mean trainer_steps trainer_max_steps trainer_reward_buffer).
#[local] Abbreviation loop :=
  (update_loop np_mean trainer_steps trainer_max_steps trainer_reward_buffer).

Lemma update_parameter_KeyError flags q settings w k w' :
  step flags (q, settings) w = (Raise (KeyError k), w') ->
  (exists lesson c,
      lesson ∈ lessons settings
      /\ completion_criteria lesson = Some c
      /\ behavior c = k
      /\ (trainer_steps !! k = None
          \/ trainer_max_steps !! k = None
          \/ trainer_reward_buffer !! k = None))
  \/ (k = q /\ _smoothing_values (self w) !! q = None).
Proof.
  unfold update_parameter, bind, gets, lift, modify, ret, logger_info,
    dict_getitem. simpl.
  intros Hstep.
  repeat (case_match; simplify_eq/=);
    repeat match goal with
           | H : getitem _ _ = Raise _ |- _ =>
               apply getitem_Raise in H; try discriminate H
           | H : float_of_int _ = Raise _ |- _ =>
               apply float_of_int_Raise in H; try discriminate H
           | H : truediv _ _ = Raise _ |- _ =>
               apply truediv_Raise in H; try discriminate H
           end;
    first
      [ right; split; [reflexivity | first [assumption | reflexivity]]
      | left; eexists _, _;
        (split; [eapply getitem_elem; eassumption |]);
        (split; [eassumption |]); (split; [reflexivity |]);
        first [ left; first [assumption | reflexivity]
              | right; left; first [assumption | reflexivity]
              | right; right; first [assumption | reflexivity] ] ].
Qed.

End CallErrors.

(** X22: a call of [update_lessons] raises [KeyError] only for the behavior
    of a completion criteria of the manager that has no entry among the
    step counts, the maximum-step counts or the reward buffers, or for a
    parameter that has no smoothing value. *)
Theorem update_lessons_KeyError
    (np_mean : list float -> float) (trainer_steps trainer_max_steps : gmap string Z)
    (trainer_reward_buffer : gmap string (list float)) (w : world) (k : string) :
  fst (update_lessons np_mean trainer_steps trainer_max_steps
         trainer_reward_buffer w) = Raise (KeyError k) ->
  (exists lesson c,
      lesson ∈ lessons_in_order (self w)
      /\ completion_criteria lesson = Some c
      /\ behavior c = k
      /\ (trainer_steps !! k = None
          \/ trainer_max_steps !! k = None
          \/ trainer_reward_buffer !! k = None))
  \/ (k ∈ (_dict_settings (self w)).*1
      /\ _smoothing_values (self w) !! k = None).
Proof.
  unfold update_lessons. intros Hcall.
  destruct (update_loop _ _ _ _ _ _ w) as [o w'] eqn:E. simpl in Hcall. subst o.
  apply update_loop_Raise_inv in E
    as (before & [q settings] & after & flags1 & w1 & Hsettings & Hbefore & Hstep).
  assert ((q, settings) ∈ _dict_settings (self w)) as Hin.
  { rewrite Hsettings. apply elem_of_app. right. left. }
  apply update_parameter_KeyError in Hstep
    as [(lesson & c & Hlesson & Hc & Hb & Hmissing)|[-> Hnone]].
  - left. exists lesson, c. split; [| auto].
    eapply lessons_in_order_elem; eassumption.
  - right. split.
    + apply list_elem_of_fmap. exists (q, settings). split; [reflexivity | assumption].
    + pose proof (update_loop_same_keys np_mean trainer_steps trainer_max_steps
                    trainer_reward_buffer before (false, false) w)
        as (_ & Hkeys & _).
      rewrite Hbefore in Hkeys. simpl in Hkeys.
      destruct (_smoothing_values (self w) !! q) as [v|] eqn:Hv; [| reflexivity].
      destruct (proj2 (Hkeys q)) as [v' Hv']; [eauto | congruence].
Qed.

Lemma update_lessons_KeyError_witness :
  (exists lesson c,
      lesson ∈ lessons_in_order (self Examples.fresh_pair)
      /\ completion_criteria lesson = Some c
      /\ behavior c = "walker"
      /\ (Examples.no_steps !! "walker" = None
          \/ Examples.max_steps !! "walker" = None
          \/ Examples.rewards !! "walker" = None))
  \/ ("walker" ∈ (_dict_settings (self Examples.fresh_pair)).*1
      /\ _smoothing_values (self Examples.fresh_pair) !! "walker" = None).
Proof.
  apply (update_lessons_KeyError sequential_mean Examples.no_steps
           Examples.max_steps Examples.rewards Examples.fresh_pair "walker").
  reflexivity.
Defined.

(** ** Calls that return *)

Section CallSafety.

Variable np_mean : list float -> float.
Variables trainer_steps trainer_max_steps : gmap string Z.
Variable trainer_reward_buffer : gmap string (list float).

#[local] Abbreviation step :=
  (update_parameter np_mean trainer_steps trainer_max_steps trainer_reward_buffer).
#[local] Abbreviation loop :=
  (update_loop np_mean trainer_steps trainer_max_steps trainer_reward_buffer).
#[local] Abbreviation ready :=
  (supplied trainer_steps trainer_max_steps trainer_reward_buffer).

(** The iteration once its lookups are known. *)
Lemma update_parameter_evaluated flags p settings w i lesson c
    n d fn fd progress buf s :
  get_parameter_state (status w) p = Some i ->
  getitem (lessons settings) i = Return lesson ->
  completion_criteria lesson = Some c ->
  trainer_steps !! behavior c = Some n ->
  float_of_int n = Return fn ->
  trainer_max_steps !! behavior c = Some d ->
  float_of_int d = Return fd ->
  truediv fn fd = Return progress ->
  trainer_reward_buffer !! behavior c = Some buf ->
  _smoothing_values (self w) !! p = Some s ->
  step flags (p, settings) w
  = let stored :=
      set_smoothing p (snd (_need_increment np_mean c progress buf s)) w in
    if fst (_need_increment np_mean c progress buf s) then
      match getitem (lessons settings) (i + 1) with
      | Return _ =>
          (Return (true, if require_reset c then true else snd flags),
           set_lesson_num p (i + 1) stored)
      | Raise e => (Raise e, set_lesson_num p (i + 1) stored)
      end
    else (Return flags, stored).
Proof.
  intros Hget Hitem Hcrit Hn Hfn Hd Hfd Hdiv Hbuf Hs.
  pose proof (getitem_Return_lt _ _ _ Hitem) as Hlt.
  unfold update_parameter, bind, gets, lift, modify, ret, logger_info. simpl.
  rewrite Hget, Hitem, Hcrit.
  destruct (Z.gtb_spec (Z.of_nat (length (lessons settings))) i) as [_|]; [| lia].
  unfold dict_getitem. rewrite Hn, Hfn, Hd, Hfd, Hdiv, Hbuf, Hs.
  destruct (_need_increment np_mean c progress buf s) as [[|] s']; simpl;
    [| reflexivity].
  destruct (getitem (lessons settings) (i + 1)); reflexivity.
Qed.

Lemma in_range_untouched p settings w w' :
  untouched p w w' ->
  in_range (status w) (p, settings) -> in_range (status w') (p, settings).
Proof.
  intros [Hsame _] (i & Hget & Hi). exists i. simpl in *.
  split; [congruence | assumption].
Qed.

Lemma update_parameter_safe flags p settings w :
  chained settings ->
  in_range (status w) (p, settings) ->
  is_Some (_smoothing_values (self w) !! p) ->
  (forall lesson c,
      lesson ∈ lessons settings -> completion_criteria lesson = Some c -> ready c) ->
  exists flags' w',
    step flags (p, settings) w = (Return flags', w')
    /\ in_range (status w') (p, settings).
Proof.
  intros Hchain (i & Hget & Hi) [s Hs] Hready. simpl in Hget, Hi.
  destruct (getitem_in_range (lessons settings) i Hi) as (lesson & Hitem & Hnth).
  destruct (completion_criteria lesson) as [c|] eqn:Hc.
  - destruct (Hready lesson c (getitem_elem _ _ _ Hitem) Hc)
      as (n & d & fn & fd & progress & buf & Hn & Hfn & Hd & Hfd & Hdiv & Hbuf).
    rewrite (update_parameter_evaluated flags p settings w i lesson c
               n d fn fd progress buf s) by assumption.
    simpl. destruct (fst (_need_increment np_mean c progress buf s)).
    + assert (S (Z.to_nat i) < length (lessons settings))%nat as Hnext
        by (apply (Hchain _ lesson Hnth); rewrite Hc; eauto).
      destruct (getitem_in_range (lessons settings) (i + 1)) as (next & -> & _);
        [lia |].
      eexists _, _. split; [reflexivity |].
      exists (i + 1). unfold get_parameter_state. simpl.
      rewrite lookup_insert_eq. split; [reflexivity | lia].
    + eexists _, _. split; [reflexivity |]. exists i. simpl. split; [assumption | lia].
  - rewrite (update_parameter_skip np_mean trainer_steps trainer_max_steps
               trainer_reward_buffer flags p settings w i lesson Hget Hitem Hc).
    eexists _, _. split; [reflexivity |]. exists i. simpl.
    split; [assumption | lia].
Qed.

Lemma update_loop_safe items :
  NoDup (items.*1) ->
  (forall p settings, (p, settings) ∈ items ->
     chained settings
     /\ forall lesson c,
          lesson ∈ lessons settings -> completion_criteria lesson = Some c ->
          ready c) ->
  forall flags w,
    (forall p settings, (p, settings) ∈ items ->
       in_range (status w) (p, settings)
       /\ is_Some (_smoothing_values (self w) !! p)) ->
    exists flags' w',
      loop items flags w = (Return flags', w')
      /\ forall p settings, (p, settings) ∈ items ->
           in_range (status w') (p, settings).
Proof.
  induction items as [|[q settings] items IH]; intros Hnd Hitems flags w Hw.
  - exists flags, w. split; [reflexivity |].
    intros p s Hin. now apply elem_of_nil in Hin.
  - rewrite fmap_cons in Hnd.
    pose proof (NoDup_cons_1_1 _ _ Hnd) as Hq. apply NoDup_cons_1_2 in Hnd.
    destruct (Hitems q settings ltac:(left)) as [Hchain Hready].
    destruct (Hw q settings ltac:(left)) as [Hrange Hsmooth].
    destruct (update_parameter_safe flags q settings w Hchain Hrange Hsmooth Hready)
      as (flags1 & w1 & Hstep & Hrange1).
    assert (forall p s, (p, s) ∈ items -> untouched p w w1) as Hothers.
    { intros p s Hin.
      pose proof (update_parameter_untouched np_mean trainer_steps
                    trainer_max_steps trainer_reward_buffer flags p q settings w)
        as Hu.
      rewrite Hstep in Hu. apply Hu. intros ->. apply Hq.
      apply list_elem_of_fmap. exists (q, s). split; [reflexivity | assumption]. }
    assert (forall p s, (p, s) ∈ items ->
              chained s
              /\ forall lesson c,
                   lesson ∈ lessons s -> completion_criteria lesson = Some c ->
                   ready c) as Hrest
      by (intros p s Hin; apply (Hitems p s); now right).
    destruct (IH Hnd Hrest flags1 w1) as (flags' & w' & Hloop & Hrange').
    { intros p s Hin. destruct (Hw p s ltac:(now right)) as [Hr Hs].
      pose proof (Hothers p s Hin) as Hu. split.
      - eapply in_range_untouched; eassumption.
      - destruct Hu as (_ & -> & _). assumption. }
    exists flags', w'. split.
    + rewrite update_loop_cons, Hstep. assumption.
    + intros p s Hin. apply elem_of_cons in Hin as [[= -> ->]|Hin];
        [| now apply Hrange'].
      pose proof (update_loop_untouched np_mean trainer_steps trainer_max_steps
                    trainer_reward_buffer items flags1 q w1 Hq) as Hu.
      rewrite Hloop in Hu. eapply in_range_untouched; eassumption.
Qed.

Lemma update_loop_monotone items flags w flags' w' :
  loop items flags w = (Return flags', w') ->
  (fst flags = true -> fst flags' = true)
  /\ (snd flags = true -> snd flags' = true).
Proof.
  intros Hloop.
  apply (update_loop_Return_inv np_mean trainer_steps trainer_max_steps
           trainer_reward_buffer
           (fun f _ => (fst flags = true -> fst f = true)
                       /\ (snd flags = true -> snd f = true)) items)
    with (flags := flags) (w := w) (w' := w'); [| tauto | assumption].
  intros [q settings] f v f' v' _ [Hu Hr] E.
  destruct (update_parameter_Return np_mean trainer_steps trainer_max_steps
              trainer_reward_buffer f q settings v f' v' E)
    as [[-> _]|(i & lesson & c & _ & _ & -> & _)]; [tauto |].
  simpl. split; [reflexivity |]. destruct (require_reset c); tauto.
Qed.

End CallSafety.

(** X23: a call of [update_lessons] returns, and can be followed by
    another, when every parameter has a smoothing value and a persisted
    lesson index among [0 .. len(lessons) - 1], every lesson with a
    completion criteria is followed by a lesson, and the dictionaries given
    have, for the behavior of every completion criteria, a step count and a
    maximum-step count that convert to floats with a quotient and a reward
    buffer. After the call every parameter still has a smoothing value and
    a lesson index among [0 .. len(lessons) - 1], and the settings are the
    same. (The names of the parameters are the keys of a dict: no name
    occurs twice.) *)
Theorem update_lessons_returns
    (np_mean : list float -> float) (trainer_steps trainer_max_steps : gmap string Z)
    (trainer_reward_buffer : gmap string (list float)) (w : world) :
  NoDup ((_dict_settings (self w)).*1) ->
  (forall p settings, (p, settings) ∈ _dict_settings (self w) ->
     chained settings
     /\ in_range (status w) (p, settings)
     /\ is_Some (_smoothing_values (self w) !! p)) ->
  (forall lesson c,
      lesson ∈ lessons_in_order (self w) ->
      completion_criteria lesson = Some c ->
      supplied trainer_steps trainer_max_steps trainer_reward_buffer c) ->
  let r := update_lessons np_mean trainer_steps trainer_max_steps
             trainer_reward_buffer w in
  is_raise (fst r) = false
  /\ _dict_settings (self (snd r)) = _dict_settings (self w)
  /\ (forall p settings, (p, settings) ∈ _dict_settings (self w) ->
        in_range (status (snd r)) (p, settings)
        /\ is_Some (_smoothing_values (self (snd r)) !! p)).
Proof.
  intros Hnd Hw Hready. simpl. unfold update_lessons.
  pose proof (update_loop_same_keys np_mean trainer_steps trainer_max_steps
                trainer_reward_buffer (_dict_settings (self w)) (false, false) w)
    as (Hsettings & Hkeys & _).
  destruct (update_loop_safe np_mean trainer_steps trainer_max_steps
              trainer_reward_buffer (_dict_settings (self w)) Hnd)
    with (flags := (false, false)) (w := w) as (flags' & w' & Hloop & Hrange).
  - intros p s Hin. split; [now apply (Hw p s) |].
    intros lesson c Hlesson Hc. apply (Hready lesson c); [| assumption].
    eapply lessons_in_order_elem; eassumption.
  - intros p s Hin. destruct (Hw p s Hin) as (_ & Hr & Hs). split; assumption.
  - rewrite Hloop in *. simpl in *.
    split; [reflexivity |]. split; [assumption |].
    intros p s Hin. split; [now apply Hrange |].
    apply Hkeys. now destruct (Hw p s Hin) as (_ & _ & Hs).
Qed.

Lemma update_lessons_returns_witness :
  let r := update_lessons sequential_mean Examples.steps Examples.max_steps
             Examples.rewards Examples.fresh_three in
  is_raise (fst r) = false
  /\ in_range (status (snd r)) ("gravity", Examples.three_lessons).
Proof.
  destruct (update_lessons_returns sequential_mean Examples.steps
              Examples.max_steps Examples.rewards Examples.fresh_three)
    as (Hret & _ & Hall).
  - apply (bool_decide_unpack _). vm_compute. exact I.
  - intros p settings Hin. apply list_elem_of_singleton in Hin.
    injection Hin as -> ->. split; [| split].
    + intros [|[|[|i]]] lesson Hi Hc; simpl in Hi; try discriminate;
        injection Hi as <-; simpl in *; try lia.
      destruct Hc as [c Hc]. discriminate.
    + exists 0. split; [reflexivity | simpl; lia].
    + exists 0%float. reflexivity.
  - intros lesson c Hin Hc.
    exists 9, 10, 9%float, 10%float, 0.9%float, [0%float].
    apply lessons_in_order_inv in Hin as (p & settings & Hitem & Hlesson).
    apply list_elem_of_singleton in Hitem. injection Hitem as -> ->.
    simpl in Hlesson.
    repeat (apply elem_of_cons in Hlesson as [->|Hlesson];
            [simpl in Hc; try discriminate Hc; injection Hc as <-;
             repeat split; reflexivity |]).
    now apply elem_of_nil in Hlesson.
  - split; [exact Hret |]. apply Hall. vm_compute. left.
Defined.

(** X24: lesson numbers survive a restart. After a constructor and a call
    of [update_lessons], whatever its outcome, a constructor called with
    [restore] on the same settings leaves the status exactly as the call
    left it. *)
Theorem restart_keeps_status
    (np_mean : list float -> float) (trainer_steps trainer_max_steps : gmap string Z)
    (trainer_reward_buffer : gmap string (list float))
    (settings : list (string * EnvironmentParameterSettings))
    (run_seed run_seed' : Z) (restore : bool) (g : GlobalTrainingStatus)
    (h h' : heap) :
  let w0 := fst (__init__ settings run_seed restore g h) in
  let w1 := snd (update_lessons np_mean trainer_steps trainer_max_steps
                   trainer_reward_buffer w0) in
  status (fst (__init__ settings run_seed' true (status w1) h')) = status w1.
Proof.
  cbv zeta.
  set (w0 := fst (__init__ settings run_seed restore g h)).
  set (w1 := snd (update_lessons _ _ _ _ w0)).
  change (fold_left (init_lesson true) (settings.*1) (status w1) = status w1).
  apply init_lessons_restore_id. intros p Hp.
  pose proof (update_loop_same_keys np_mean trainer_steps trainer_max_steps
                trainer_reward_buffer (_dict_settings (self w0)) (false, false) w0)
    as (_ & _ & Hkeys).
  apply (Hkeys p). subst w0. simpl. now apply init_lessons_is_Some.
Qed.

(** X25: what a call of [update_lessons] that returns has done for a
    parameter whose current lesson has a completion criteria. The smoothing
    value of the parameter is the one the evaluator returned, whether or
    not an increment was signalled; its lesson index is the next one when
    an increment was signalled and the same one otherwise; and when an
    increment was signalled [updated] is true, and [must_reset] is true if
    the criteria requires a reset. (The names of the parameters are the
    keys of a dict: no name occurs twice.) *)
Theorem update_lessons_parameter_outcome
    (np_mean : list float -> float) (trainer_steps trainer_max_steps : gmap string Z)
    (trainer_reward_buffer : gmap string (list float)) (w : world)
    (p : string) (settings : EnvironmentParameterSettings) (i : Z)
    (lesson : Lesson) (c : CompletionCriteriaSettings) (n d : Z)
    (fn fd progress : float) (buf : list float) (s : float)
    (updated must_reset : bool) :
  NoDup ((_dict_settings (self w)).*1) ->
  (p, settings) ∈ _dict_settings (self w) ->
  get_parameter_state (status w) p = Some i ->
  getitem (lessons settings) i = Return lesson ->
  completion_criteria lesson = Some c ->
  trainer_steps !! behavior c = Some n ->
  float_of_int n = Return fn ->
  trainer_max_steps !! behavior c = Some d ->
  float_of_int d = Return fd ->
  truediv fn fd = Return progress ->
  trainer_reward_buffer !! behavior c = Some buf ->
  _smoothing_values (self w) !! p = Some s ->
  let r := update_lessons np_mean trainer_steps trainer_max_steps
             trainer_reward_buffer w in
  let evaluated := _need_increment np_mean c progress buf s in
  fst r = Return (updated, must_reset) ->
  _smoothing_values (self (snd r)) !! p = Some (snd evaluated)
  /\ get_parameter_state (status (snd r)) p
     = Some (if fst evaluated then i + 1 else i)
  /\ (fst evaluated = true ->
      updated = true /\ (require_reset c = true -> must_reset = true)).
Proof.
  intros Hnd Hin Hget Hitem Hc Hn Hfn Hd Hfd Hdiv Hbuf Hs. cbv zeta.
  unfold update_lessons. intros Hcall.
  apply list_elem_of_split in Hin as (before & after & Hsettings).
  rewrite Hsettings in *. clear Hsettings.
  rewrite fmap_app, fmap_cons in Hnd. simpl in Hnd.
  apply list.NoDup_app in Hnd as (_ & Hbefore & Hnd).
  pose proof (NoDup_cons_1_1 _ _ Hnd) as Hafter.
  assert (p ∉ before.*1) as Hp.
  { intros Hp. apply (Hbefore p Hp). left. }
  rewrite update_loop_app in *.
  pose proof (update_loop_untouched np_mean trainer_steps trainer_max_steps
                trainer_reward_buffer before (false, false) p w Hp) as Hw1.
  destruct (update_loop _ _ _ _ before (false, false) w) as [[flags1|e] w1];
    [| discriminate].
  simpl in Hw1. destruct Hw1 as (Hget1 & Hs1 & _).
  rewrite update_loop_cons in *.
  rewrite (update_parameter_evaluated np_mean trainer_steps trainer_max_steps
             trainer_reward_buffer flags1 p settings w1 i lesson c
             n d fn fd progress buf s) in * by congruence.
  cbv zeta in *.
  set (evaluated := _need_increment np_mean c progress buf s) in *.
  set (stored := set_smoothing p (snd evaluated) w1) in *.
  destruct (fst evaluated).
  - destruct (getitem (lessons settings) (i + 1)) as [next|e]; [| discriminate].
    pose proof (update_loop_untouched np_mean trainer_steps trainer_max_steps
                  trainer_reward_buffer after
                  (true, if require_reset c then true else snd flags1) p
                  (set_lesson_num p (i + 1) stored) Hafter) as Hw'.
    destruct (update_loop _ _ _ _ after _ (set_lesson_num p (i + 1) stored))
      as [o w'] eqn:E.
    simpl in Hcall, Hw'. subst o. destruct Hw' as (Hget' & Hs' & _).
    simpl. rewrite Hs', Hget'. unfold get_parameter_state. simpl.
    rewrite !lookup_insert_eq. split; [reflexivity |]. split; [reflexivity |].
    intros _.
    destruct (update_loop_monotone _ _ _ _ _ _ _ _ _ E) as [Hu Hr]. simpl in *.
    split; [now apply Hu |]. intros Hreset. apply Hr. now rewrite Hreset.
  - pose proof (update_loop_untouched np_mean trainer_steps trainer_max_steps
                  trainer_reward_buffer after flags1 p stored Hafter) as Hw'.
    destruct (update_loop _ _ _ _ after flags1 stored) as [o w'] eqn:E.
    simpl in Hcall, Hw'. subst o. destruct Hw' as (Hget' & Hs' & _).
    simpl. rewrite Hs', Hget'. simpl.
    rewrite lookup_insert_eq. split; [reflexivity |].
    split; [congruence | discriminate].
Qed.

Lemma update_lessons_parameter_outcome_witness :
  let r := update_lessons sequential_mean Examples.steps Examples.max_steps
             Examples.rewards Examples.fresh_reset in
  _smoothing_values (self (snd r)) !! "wind" = Some 0%float
  /\ get_parameter_state (status (snd r)) "wind" = Some 1.
Proof.
  destruct (update_lessons_parameter_outcome sequential_mean Examples.steps
              Examples.max_steps Examples.rewards Examples.fresh_reset
              "wind" Examples.reset_then_calm 0
              {| sampler := 0%nat; completion_criteria := Some Examples.progress_reset;
                 name := "storm" |}
              Examples.progress_reset 9 10 9 10 0.9 [0%float] 0 true true)
    as (Hs & Hi & _).
  - apply (bool_decide_unpack _). vm_compute. exact I.
  - vm_compute. left.
  - reflexivity.
  - reflexivity.
  - reflexivity.
  - reflexivity.
  - reflexivity.
  - reflexivity.
  - reflexivity.
  - reflexivity.
  - reflexivity.
  - reflexivity.
  - reflexivity.
  - split; [exact Hs | exact Hi].
Defined.

(** X26: a call of [update_lessons] on a manager whose parameters are all
    at a lesson without completion criteria returns [(False, False)] and
    changes nothing. *)
Theorem update_lessons_without_criteria
    (np_mean : list float -> float) (trainer_steps trainer_max_steps : gmap string Z)
    (trainer_reward_buffer : gmap string (list float)) (w : world) :
  (forall p settings,
      (p, settings) ∈ _dict_settings (self w) ->
      exists i lesson,
        get_parameter_state (status w) p = Some i
        /\ getitem (lessons settings) i = Return lesson
        /\ completion_criteria lesson = None) ->
  update_lessons np_mean trainer_steps trainer_max_steps trainer_reward_buffer w
  = (Return (false, false), w).
Proof.
  unfold update_lessons. generalize (false, false).
  induction (_dict_settings (self w)) as [|[q settings] items IH];
    intros flags Hall; [reflexivity |].
  rewrite update_loop_cons.
  destruct (Hall q settings ltac:(left)) as (i & lesson & Hget & Hitem & Hc).
  rewrite (update_parameter_skip _ _ _ _ flags q settings w i lesson Hget Hitem Hc).
  apply IH. intros p s Hin. apply Hall. now right.
Qed.

Lemma update_lessons_without_criteria_witness :
  let w := fst (__init__ [("wind", Examples.single_lesson)] 0 false
                  Examples.no_status Examples.no_seed) in
  update_lessons sequential_mean Examples.steps Examples.max_steps
    Examples.rewards w
  = (Return (false, false), w).
Proof.
  apply update_lessons_without_criteria.
  intros p settings Hin. apply list_elem_of_singleton in Hin.
  injection Hin as -> ->.
  exists 0, Examples.calm. repeat split; reflexivity.
Defined.

(** ** After the constructor *)

Lemma init_lessons_reset_all (names : list string) (g : GlobalTrainingStatus)
    (p : string) :
  p ∈ names ->
  saved_state (fold_left (init_lesson false) names g) !! p = Some 0.
Proof.
  intros Hin.
  destruct (init_lessons_spec false names g) as (new & _ & Hreset & _).
  destruct (Hreset p Hin) as [-> _]; [now left | reflexivity].
Qed.

(** X27: after a constructor called without [restore],
    [get_current_lesson_number] gives lesson 0 for every parameter of the
    settings, whatever the status held before. *)
Theorem init_current_lesson_number
    (settings : list (string * EnvironmentParameterSettings)) (run_seed : Z)
    (g : GlobalTrainingStatus) (h : heap) :
  get_current_lesson_number (fst (__init__ settings run_seed false g h))
  = map (fun p => (p, Some 0)) (settings.*1).
Proof.
  unfold get_current_lesson_number. simpl. apply map_ext_in.
  intros p Hp. unfold get_parameter_state.
  rewrite init_lessons_reset_all by now apply list_elem_of_In. reflexivity.
Qed.

Lemma current_samplers_loop_values g items :
  forall d0 d k l,
    current_samplers_loop g items d0 = Return d ->
    d !! k = Some l ->
    d0 !! k = Some l
    \/ exists p settings lesson,
         (p, settings) ∈ items /\ lesson ∈ lessons settings
         /\ l = sampler lesson.
Proof.
  induction items as [|[q settings] items IH]; intros d0 d k l Hloop Hk.
  - injection Hloop as <-. now left.
  - simpl in Hloop.
    destruct (get_parameter_state g q) as [i|]; [| discriminate].
    destruct (getitem (lessons settings) i) as [lesson|e] eqn:Hitem;
      [| discriminate].
    destruct (IH _ _ k l Hloop Hk) as [H0|(p & s & lesson' & Hin & Hl & ->)].
    + apply lookup_insert_Some in H0 as [[_ <-]|[_ H0]]; [| now left].
      right. exists q, settings, lesson. split; [left |].
      split; [eapply getitem_elem; eassumption | reflexivity].
    + right. exists p, s, lesson'. split; [now right | split; [assumption | reflexivity]].
Qed.

(** X28: after a constructor called with a run seed that is not negative,
    every sampler that [get_current_samplers] returns has a seed: none has
    the sentinel -1. *)
Theorem init_current_samplers_seeded
    (settings : list (string * EnvironmentParameterSettings)) (run_seed : Z)
    (restore : bool) (g : GlobalTrainingStatus) (h : heap)
    (d : gmap string loc) (p : string) (l : loc) :
  0 <= run_seed ->
  get_current_samplers (fst (__init__ settings run_seed restore g h)) = Return d ->
  d !! p = Some l ->
  seed (snd (__init__ settings run_seed restore g h) l) <> -1.
Proof.
  intros Hpos Hd Hp. unfold get_current_samplers in Hd.
  destruct (current_samplers_loop_values _ _ _ _ _ _ Hd Hp)
    as [H0|(q & s & lesson & Hin & Hlesson & ->)].
  - rewrite lookup_empty in H0. discriminate.
  - simpl. rewrite set_sampler_seeds_flat.
    apply seed_lessons_no_sentinel; [lia |].
    eapply lessons_in_order_elem; eassumption.
Qed.

Lemma init_current_samplers_seeded_witness :
  seed (snd (__init__ [("gravity", Examples.two_lessons);
                       ("wind", Examples.single_lesson)] 0 false
               Examples.no_status Examples.no_seed) 2%nat) <> -1.
Proof.
  apply (init_current_samplers_seeded
           [("gravity", Examples.two_lessons); ("wind", Examples.single_lesson)]
           0 false Examples.no_status Examples.no_seed
           {["gravity" := 0%nat; "wind" := 2%nat]} "wind" 2%nat);
    [lia | vm_compute; reflexivity | reflexivity].
Defined.

(** X29: after a constructor called without [restore] on settings in which
    every parameter has a lesson, [get_current_samplers] returns, and gives
    every parameter the sampler of its first lesson. (The names of the
    parameters are the keys of a dict: no name occurs twice.) *)
Theorem init_current_samplers_first
    (settings : list (string * EnvironmentParameterSettings)) (run_seed : Z)
    (g : GlobalTrainingStatus) (h : heap) :
  NoDup (settings.*1) ->
  (forall p s, (p, s) ∈ settings -> lessons s <> []) ->
  exists d,
    get_current_samplers (fst (__init__ settings run_seed false g h)) = Return d
    /\ forall p s, (p, s) ∈ settings ->
         exists first, head (lessons s) = Some first
                       /\ d !! p = Some (sampler first).
Proof.
  intros Hnd Hne. unfold get_current_samplers. simpl.
  set (g' := fold_left (init_lesson false) (settings.*1) g).
  assert (forall p s, (p, s) ∈ settings ->
            exists first, head (lessons s) = Some first
                          /\ get_parameter_state g' p = Some 0
                          /\ getitem (lessons s) 0 = Return first) as Hfirst.
  { intros p s Hin. destruct (lessons s) as [|first rest] eqn:Hl.
    - now destruct (Hne p s Hin).
    - exists first. split; [reflexivity |]. split; [| reflexivity].
      apply init_lessons_reset_all, list_elem_of_fmap.
      exists (p, s). split; [reflexivity | assumption]. }
  destruct (current_samplers_loop_returns g' settings) with (d0 := (∅ : gmap string loc))
    as [d Hd].
  { intros [p s] Hin. destruct (Hfirst p s Hin) as (first & _ & Hget & Hitem).
    exists 0, first. split; assumption. }
  exists d. split; [assumption |].
  intros p s Hin. destruct (Hfirst p s Hin) as (first & Hhead & Hget & Hitem).
  exists first. split; [assumption |].
  destruct (current_samplers_loop_Return _ _ _ _ Hd) as (_ & _ & Hcontent).
  destruct (Hcontent Hnd p s Hin) as (i & lesson & Hget' & Hitem' & ->).
  congruence.
Qed.

Lemma init_current_samplers_first_witness :
  exists d,
    get_current_samplers Examples.fresh_pair = Return d
    /\ d !! "wind" = Some 2%nat.
Proof.
  destruct (init_current_samplers_first
              [("gravity", Examples.two_lessons); ("wind", Examples.single_lesson)]
              0 Examples.no_status Examples.no_seed) as (d & Hd & Hall).
  - apply (bool_decide_unpack _). vm_compute. exact I.
  - intros p s Hin. apply elem_of_cons in Hin as [[= -> ->]|Hin]; [discriminate |].
    apply list_elem_of_singleton in Hin. injection Hin as -> ->. discriminate.
  - exists d. split; [exact Hd |].
    destruct (Hall "wind" Examples.single_lesson) as (first & Hhead & Hwind);
      [vm_compute; right; left |].
    injection Hhead as <-. exact Hwind.
Defined.
